(** * Stake-pool epoch pipeline: the scripts under [scripts/] and their properties

    The five scripts of the repository are embedded as Rocq functions:
    - [generate_metas.py], [generate_all_metas.py]: purge of the derived
      artifacts of an epoch workspace and invocation of the metas generator;
    - [generate_all_stats.py]: invocation of the stats generator per epoch;
    - [prepare_epoch.py]: [find_jito_snapshot] and [find_blob_in_bucket];
    - [upload_stats.py]: upload of the stats files and of the manifest.

    File names and paths are strings, epochs and slots are integers ([Z]),
    the directory of epoch workspaces is a finite map, and every call to an
    external collaborator (print, file removal, subprocess, bucket) is
    recorded in a trace of events. *)

From stdpp Require Import base strings list gmap sorting pretty.
From Stdlib Require Import ZArith Ascii String Lia.

Local Open Scope string_scope.
Local Open Scope Z_scope.

(** ** Python primitives used by the scripts *)

Module Py.

(** The double-quote character, for the text produced by [json.dumps]. *)
Definition dquote : string := String (ascii_of_nat 34) EmptyString.

(** [str.__lt__]/[__le__]: strings compare character by character on the
    code of the characters, a proper prefix being smaller. *)
Fixpoint str_le (a b : string) : bool :=
  match a, b with
  | EmptyString, _ => true
  | String _ _, EmptyString => false
  | String x a', String y b' =>
      if (N_of_ascii x <? N_of_ascii y)%N then true
      else if (N_of_ascii y <? N_of_ascii x)%N then false
      else str_le a' b'
  end.

(** [list.sort()] on a list of [str]. *)
Definition sort (l : list string) : list string :=
  merge_sort (λ a b, Is_true (str_le a b)) l.

(** [prefix + rest == s]: the text of [s] after [prefix], if [s] starts
    with it. *)
Fixpoint strip_prefix (prefix s : string) : option string :=
  match prefix, s with
  | EmptyString, _ => Some s
  | String p prefix', String c s' =>
      if Ascii.eqb p c then strip_prefix prefix' s' else None
  | String _ _, EmptyString => None
  end.

(** [sub in s] on strings. *)
Fixpoint str_in (sub s : string) : bool :=
  match strip_prefix sub s with
  | Some _ => true
  | None => match s with
            | EmptyString => false
            | String _ s' => str_in sub s'
            end
  end.

(** [s.split(sep)[-1]] for a one-character separator: the text after the
    last occurrence of [sep], or all of [s] when there is none. *)
Fixpoint last_segment (sep : ascii) (s : string) : string :=
  match s with
  | EmptyString => EmptyString
  | String c s' =>
      if Ascii.eqb c sep then last_segment sep s'
      else if str_in (String sep EmptyString) s' then last_segment sep s'
      else s
  end.

(** [str(n)] for an [int]. *)
Definition str (n : Z) : string := pretty n.

Definition is_digit (c : ascii) : bool :=
  ((48 <=? N_of_ascii c) && (N_of_ascii c <=? 57))%N.

(** [int(s)] for a string of the digits [0-9] (the only use in the
    scripts: the text captured by the group [([0-9]+)]). *)
Definition int_of_digits (s : string) : Z :=
  fold_left (λ acc c, 10 * acc + (Z.of_N (N_of_ascii c) - 48))
            (list_ascii_of_string s) 0.

(** [os.path.join(a, b)] of [posixpath]. *)
Definition path_join (a b : string) : string :=
  match b with
  | String "/" _ => b
  | _ =>
      match a with
      | EmptyString => b
      | _ => if bool_decide (last (list_ascii_of_string a) = Some "/"%char)
             then a +:+ b else a +:+ "/" +:+ b
      end
  end.

(** *** The fragment of [re] the scripts use

    Character classes [.], [[0-9]] and [[^/]], literal text, one greedy
    repetition [c+] of a class, one level of capture groups, and sequence.
    [run r s] lists the ways [r] matches a prefix of [s], in the order the
    backtracking matcher of [re] tries them: each is the matched text, the
    captured groups and the rest of [s]. [re.match] takes the first. *)

Inductive cclass := AnyChar | Digit09 | NotSlash.

Definition in_class (k : cclass) (c : ascii) : bool :=
  match k with
  | AnyChar => negb (Ascii.eqb c (ascii_of_nat 10))
  | Digit09 => is_digit c
  | NotSlash => negb (Ascii.eqb c "/")
  end.

Inductive regex :=
| Lit (text : string)
| One (k : cclass)
| Many1 (k : cclass)
| Group (r : regex)
| Seq (r1 r2 : regex).

(** The non-empty runs of characters of class [k] at the start of [s],
    longest first (the repetition is greedy), each with what follows. *)
Fixpoint many1_splits (k : cclass) (s : string) : list (string * string) :=
  match s with
  | EmptyString => []
  | String c s' =>
      if in_class k c
      then map (λ ms, (String c ms.1, ms.2)) (many1_splits k s')
             ++ [(String c EmptyString, s')]
      else []
  end.

Record rmatch := { matched : string; groups : list string; rest : string }.

Fixpoint run (r : regex) (s : string) : list rmatch :=
  match r with
  | Lit t =>
      match strip_prefix t s with
      | Some s' => [{| matched := t; groups := []; rest := s' |}]
      | None => []
      end
  | One k =>
      match s with
      | String c s' =>
          if in_class k c
          then [{| matched := String c EmptyString; groups := []; rest := s' |}]
          else []
      | EmptyString => []
      end
  | Many1 k =>
      map (λ ms, {| matched := ms.1; groups := []; rest := ms.2 |})
          (many1_splits k s)
  | Group r' =>
      map (λ m, {| matched := matched m;
                   groups := matched m :: groups m;
                   rest := rest m |}) (run r' s)
  | Seq r1 r2 =>
      flat_map (λ m1,
        map (λ m2, {| matched := matched m1 +:+ matched m2;
                      groups := groups m1 ++ groups m2;
                      rest := rest m2 |}) (run r2 (rest m1))) (run r1 s)
  end.

(** [re.match(r, s)]: a match anchored at the start of [s], not at its end. *)
Definition re_match (r : regex) (s : string) : option rmatch :=
  head (run r s).

(** [re.search(r, s)]: the first position of [s] where [r] matches. *)
Fixpoint re_search (r : regex) (s : string) : option rmatch :=
  match re_match r s with
  | Some m => Some m
  | None => match s with
            | EmptyString => None
            | String _ s' => re_search r s'
            end
  end.

(** [int(match.groups()[0])]. *)
Definition group0_int (m : rmatch) : Z :=
  int_of_digits (default EmptyString (head (groups m))).

End Py.

(** ** Runs of a script: trace of external calls, state, outcome *)

(** Calls to the outside world, in the order the script makes them. *)
Inductive event :=
| Print (line : string)
| Rmtree (path : string)                        (* shutil.rmtree *)
| Remove (path : string)                        (* os.remove *)
| Makedirs (path : string)                      (* os.makedirs(.., exist_ok=True) *)
| Run (cmd : list string) (env : list (string * string))
                                                (* subprocess.run(cmd, env=..) *)
| UploadFromFilename (blob_name path : string)  (* blob.upload_from_filename *)
| UploadFromString (blob_name data : string)    (* blob.upload_from_string *)
| AclGrantAllRead (blob_name : string)          (* blob.acl.all().grant_read() *)
| AclSave (blob_name : string).                 (* blob.acl.save() *)

#[global] Instance event_eq_dec : EqDecision event.
Proof. solve_decision. Defined.

Inductive exn :=
| UnboundLocalError (var : string)
| FileExistsError (path : string)
| RpcError.

(** How a piece of script ends: it falls through with a value, calls
    [sys.exit(code)], or raises an exception nobody catches (the scripts
    contain no [try]). *)
Inductive outcome (A : Type) :=
| Normal (a : A)
| SysExit (code : Z)
| Raised (e : exn).
Arguments Normal {A} a.
Arguments SysExit {A} code.
Arguments Raised {A} e.

Module Script.

Record result (S A : Type) := Result {
  trace : list event;
  final : S;
  out : outcome A
}.
Arguments Result {S A}.
Arguments trace {S A}.
Arguments final {S A}.
Arguments out {S A}.

Definition M (S A : Type) : Type := S → result S A.

Definition ret {S A} (a : A) : M S A := λ s, Result [] s (Normal a).

Definition bind {S A B} (m : M S A) (k : A → M S B) : M S B := λ s,
  let r := m s in
  match out r with
  | Normal a =>
      let r' := k a (final r) in
      Result (trace r ++ trace r') (final r') (out r')
  | SysExit c => Result (trace r) (final r) (SysExit c)
  | Raised e => Result (trace r) (final r) (Raised e)
  end.

Definition emit {S} (e : event) : M S unit := λ s, Result [e] s (Normal tt).
Definition get {S} : M S S := λ s, Result [] s (Normal s).
Definition put {S} (s' : S) : M S unit := λ _, Result [] s' (Normal tt).
Definition sys_exit {S A} (code : Z) : M S A := λ s, Result [] s (SysExit code).
Definition raise {S A} (e : exn) : M S A := λ s, Result [] s (Raised e).

(** [for x in l: body(x)]; a [continue] is a body that returns early. *)
Fixpoint for_each {S X} (l : list X) (body : X → M S unit) : M S unit :=
  match l with
  | [] => ret tt
  | x :: l' => bind (body x) (λ _, for_each l' body)
  end.

End Script.

Notation "x <- m ;; k" := (Script.bind m (λ x, k))
  (at level 100, m at next level, right associativity).
Notation "m ;;; k" := (Script.bind m (λ _, k))
  (at level 100, right associativity).

(** ** [upload_stats.py] *)

Module UploadStats.
Import Py Script.

Definition STAKE_POOL_STATS_DIR : string := "stake_pool_data".

(** ["stats_([0-9]+).json"]; the dot is not escaped in the source. *)
Definition stats_file_regex : regex :=
  Seq (Lit "stats_")
      (Seq (Group (Many1 Digit09)) (Seq (One AnyChar) (Lit "json"))).

(** The dict [manifest = {"latest": None, "epochs": []}]. *)
Record manifest := Manifest { latest : option Z; epochs : list Z }.

(** [json.dumps(manifest)] with the default separators. *)
Definition json_dumps (m : manifest) : string :=
  "{" +:+ dquote +:+ "latest" +:+ dquote +:+ ": "
      +:+ match latest m with None => "null" | Some e => str e end
      +:+ ", " +:+ dquote +:+ "epochs" +:+ dquote +:+ ": ["
      +:+ String.concat ", " (map str (epochs m)) +:+ "]}".

(** The local variables of [main] assigned in the loop: [blob] is unbound
    ([None]) until the body runs for a matching file. *)
Record locals := Locals { the_manifest : manifest; blob : option string }.

Definition blob_name_of (stats_file : string) : string :=
  STAKE_POOL_STATS_DIR +:+ "/" +:+ stats_file.

Definition manifest_blob_name : string :=
  STAKE_POOL_STATS_DIR +:+ "/manifest.json".

(** Lines 41-43: the update of [manifest] for one epoch. *)
Definition record_epoch (epoch : Z) (m : manifest) : manifest :=
  {| latest := match latest m with
               | None => Some epoch
               | Some l => if (l <? epoch)%Z then Some epoch else Some l
               end;
     epochs := epochs m ++ [epoch] |}.

(** What the loop reads from a file name: the epoch, when the name matches. *)
Definition parse_epoch (stats_file : string) : option Z :=
  group0_int <$> re_match stats_file_regex stats_file.

Definition parsed_epochs (files : list string) : list Z :=
  omap parse_epoch files.

Section Main.
(** [stats_dir]: the real path of [<script_dir>/../output]. *)
Variable stats_dir : string.

(** Lines 27-43, the body of [for stats_file in stats_files]. *)
Definition loop_body (stats_file : string) : M locals unit :=
  match re_match stats_file_regex stats_file with
  | Some m =>
      let epoch := group0_int m in
      let blob_name := blob_name_of stats_file in
      (l <- get ;;
       put {| the_manifest := the_manifest l; blob := Some blob_name |} ;;;
       let stats_path := path_join stats_dir stats_file in
       (emit (Print ("Uploading " +:+ stats_path +:+ " to " +:+ blob_name)) ;;;
        emit (UploadFromFilename blob_name stats_path) ;;;
        emit (AclGrantAllRead blob_name) ;;;
        emit (AclSave blob_name) ;;;
        l <- get ;;
        put {| the_manifest := record_epoch epoch (the_manifest l);
               blob := blob l |}))
  | None => ret tt
  end.

(** [main()], given what [os.listdir(stats_dir)] returned. After the loop
    the ACL calls of lines 49-50 go to [blob], not to [manifest_blob]. *)
Definition main (listing : list string) : result locals unit :=
  (let stats_files := sort listing in
   (for_each stats_files loop_body ;;;
    emit (Print ("Uploading manifest to " +:+ manifest_blob_name)) ;;;
    l <- get ;;
    emit (UploadFromString manifest_blob_name (json_dumps (the_manifest l))) ;;;
    match blob l with
    | None => raise (UnboundLocalError "blob")
    | Some b => emit (AclGrantAllRead b) ;;; emit (AclSave b)
    end))
  {| the_manifest := {| latest := None; epochs := [] |}; blob := None |}.

(** The manifest [main] has built when it uploads it. *)
Definition built_manifest (listing : list string) : manifest :=
  the_manifest (final (main listing)).

(** The loop seen from outside: the events it emits and the locals it
    leaves, file by file (used to state what [main] does). *)
Definition upload_events (stats_file : string) : list event :=
  [Print ("Uploading " +:+ path_join stats_dir stats_file +:+ " to "
          +:+ blob_name_of stats_file);
   UploadFromFilename (blob_name_of stats_file) (path_join stats_dir stats_file);
   AclGrantAllRead (blob_name_of stats_file);
   AclSave (blob_name_of stats_file)].

Fixpoint loop_trace (files : list string) : list event :=
  match files with
  | [] => []
  | f :: files' =>
      match parse_epoch f with
      | Some _ => upload_events f ++ loop_trace files'
      | None => loop_trace files'
      end
  end.

Fixpoint loop_locals (files : list string) (l : locals) : locals :=
  match files with
  | [] => l
  | f :: files' =>
      match parse_epoch f with
      | Some e => loop_locals files'
                    {| the_manifest := record_epoch e (the_manifest l);
                       blob := Some (blob_name_of f) |}
      | None => loop_locals files' l
      end
  end.

End Main.

(** [latest] is an upper bound of what was recorded, and one of them. *)
Definition is_max (o : option Z) (l : list Z) : Prop :=
  match o with
  | None => l = []
  | Some e => e ∈ l ∧ ∀ e', e' ∈ l → e' ≤ e
  end.

(** The blobs a run uploads, and the blobs it makes public: those with a
    [grant_read] on all users followed by a [save] of the ACL. *)
Definition uploaded (tr : list event) (b : string) : Prop :=
  ∃ x, UploadFromFilename b x ∈ tr ∨ UploadFromString b x ∈ tr.

Definition public_read (tr : list event) (b : string) : Prop :=
  ∃ tr1 tr2 tr3 : list event,
    tr = (tr1 ++ AclGrantAllRead b :: tr2 ++ AclSave b :: tr3)%list.

End UploadStats.

(** ** The world the generator scripts run in *)

(** An entry of an epoch workspace: a regular file or a directory (what
    [os.path.isfile] and [os.path.isdir] tell apart). *)
Inductive kind := KFile | KDir.

#[global] Instance kind_eq_dec : EqDecision kind.
Proof. solve_decision. Defined.

(** An entry of the [data] directory: a file, or a directory with its
    entries (an epoch workspace when its name is [epoch_<n>]). *)
Inductive node := File | Dir (entries : gmap string kind).

Record world := World {
  data_dir : gmap string node;       (* <repo>/data *)
  output_dir : gset string;          (* the file names in <repo>/output *)
  binaries : gset string;            (* the file names in <repo>/target/release *)
  epoch_schedule : option (Z → Z);   (* get_epoch_schedule(): the last slot of
                                        an epoch, or the RPC call fails *)
  epoch_info : option Z              (* get_epoch_info(): the live epoch *)
}.

Module Fs.
Import Py Script.

(** [os.listdir(<repo>/data)], in the order the map yields its keys. *)
Definition listdir (m : gmap string node) : list string := (map_to_list m).*1.

(** [os.path.exists(epoch_dir)]. *)
Definition exists_dir_entry (w : world) (dir_name : string) : bool :=
  bool_decide (is_Some (data_dir w !! dir_name)).

(** The kind of [<data>/<dir_name>/<child>], if it exists. *)
Definition child (w : world) (dir_name c : string) : option kind :=
  match data_dir w !! dir_name with
  | Some (Dir es) => es !! c
  | _ => None
  end.

Definition isdir (w : world) (dir_name c : string) : bool :=
  match child w dir_name c with Some KDir => true | _ => false end.

Definition isfile (w : world) (dir_name c : string) : bool :=
  match child w dir_name c with Some KFile => true | _ => false end.

(** The world once [<data>/<dir_name>/<child>] is removed (with what is
    below it, for a directory). *)
Definition remove_child (dir_name c : string) (w : world) : world :=
  {| data_dir := alter (λ n, match n with
                            | Dir es => Dir (delete c es)
                            | File => File
                            end) dir_name (data_dir w);
     output_dir := output_dir w;
     binaries := binaries w;
     epoch_schedule := epoch_schedule w;
     epoch_info := epoch_info w |}.

(** The world once [<data>/<dir_name>] has been created as an empty
    directory. *)
Definition make_dir (dir_name : string) (w : world) : world :=
  {| data_dir := <[dir_name := Dir ∅]> (data_dir w);
     output_dir := output_dir w;
     binaries := binaries w;
     epoch_schedule := epoch_schedule w;
     epoch_info := epoch_info w |}.

(** The block under [# Delete previous artifacts], the same text in
    [generate_metas.py] (lines 35-44) and [generate_all_metas.py]
    (lines 47-56), for the workspace [epoch_dir = <data>/<dir_name>]. *)
Definition delete_previous_artifacts (epoch_dir dir_name : string)
  : M world unit :=
  let rocksdb_dir := path_join epoch_dir "rocksdb" in
  (w <- get ;;
   (if isdir w dir_name "rocksdb"
    then emit (Rmtree rocksdb_dir) ;;; put (remove_child dir_name "rocksdb" w)
    else ret tt) ;;;
   let accounts_dir := path_join epoch_dir "stake-pools.accounts" in
   (w <- get ;;
    (if isdir w dir_name "stake-pools.accounts"
     then emit (Rmtree accounts_dir) ;;;
          put (remove_child dir_name "stake-pools.accounts" w)
     else ret tt) ;;;
    let genesis_unpacked_dir := path_join epoch_dir "genesis.bin" in
    (w <- get ;;
     if isfile w dir_name "genesis.bin"
     then emit (Remove genesis_unpacked_dir) ;;;
          put (remove_child dir_name "genesis.bin" w)
     else ret tt))).

(** [os.makedirs(epoch_dir, exist_ok=True)]: nothing to do for a directory,
    [FileExistsError] when the path is a regular file. *)
Definition makedirs_exist_ok (epoch_dir dir_name : string) : M world unit :=
  w <- get ;;
  match data_dir w !! dir_name with
  | Some (Dir _) => emit (Makedirs epoch_dir)
  | Some File => emit (Makedirs epoch_dir) ;;; raise (FileExistsError epoch_dir)
  | None => emit (Makedirs epoch_dir) ;;; put (make_dir dir_name w)
  end.

Section Subprocess.
(** The generator binaries are opaque: a run may change the world in any
    way and returns an exit code. *)
Variable generator : list string → world → world * Z.

(** [subprocess.run(cmd, env=env)]: the [CompletedProcess] it returns
    carries the exit code; there is no [check=True]. *)
Definition subprocess_run (cmd : list string) (env : list (string * string))
  : M world Z :=
  λ w, let wr := generator cmd w in Result [Run cmd env] wr.1 (Normal wr.2).

End Subprocess.

End Fs.

(** ** [generate_metas.py] *)

Module GenerateMetas.
Import Py Script Fs.

Definition GENERATOR_BINARY : string := "generate-metas".

Section Main.
Variable generator : list string → world → world * Z.
(** The real paths of [<script_dir>/../data], [<script_dir>/../output] and
    [<script_dir>/../target/release]. *)
Variables epochs_dir output_path release_dir : string.

(** [main()] for [sys.argv = [_, str(target_epoch), ..]]. *)
Definition main (target_epoch : Z) : M world unit :=
  emit (Print ("Generating stake pool metas for epoch " +:+ str target_epoch)) ;;;
  let dir_name := "epoch_" +:+ str target_epoch in
  let epoch_dir := path_join epochs_dir dir_name in
  (w <- get ;;
   if negb (exists_dir_entry w dir_name)
   then emit (Print ("Error: epoch " +:+ str target_epoch +:+ " not prepped")) ;;;
        sys_exit 1
   else
     delete_previous_artifacts epoch_dir dir_name ;;;
     let bin_path := path_join release_dir GENERATOR_BINARY in
     (w <- get ;;
      if negb (bool_decide (GENERATOR_BINARY ∈ binaries w))
      then emit (Print ("Error: binary " +:+ GENERATOR_BINARY
                        +:+ " not found. Have you built the crate?")) ;;;
           sys_exit 1
      else
        makedirs_exist_ok epoch_dir dir_name ;;;
        w <- get ;;
        match epoch_schedule w with
        | None => raise RpcError
        | Some schedule =>
            let target_slot := schedule target_epoch in
            emit (Print ("Target slot: " +:+ str target_slot)) ;;;
            let output_file :=
              path_join output_path
                ("stake_pool_metas_" +:+ str target_epoch +:+ ".json") in
            (subprocess_run generator
               [bin_path; "--ledger-path"; epoch_dir; "--out-path"; output_file;
                "--snapshot-slot"; str target_slot] [] ;;;
             ret tt)
        end)).

End Main.
End GenerateMetas.

(** ** [generate_all_metas.py] *)

Module GenerateAllMetas.
Import Py Script Fs.

Definition GENERATOR_BINARY : string := "generate-metas".

(** ["epoch_([0-9]+)"]. *)
Definition epochs_dir_regex : regex :=
  Seq (Lit "epoch_") (Group (Many1 Digit09)).

Section Main.
Variable generator : list string → world → world * Z.
Variables epochs_dir output_path release_dir : string.

Definition bin_path : string := path_join release_dir GENERATOR_BINARY.

Definition metas_cmd (epoch_dir : string) (target_epoch target_slot : Z)
  : list string :=
  [bin_path; "--ledger-path"; epoch_dir; "--out-path";
   path_join output_path ("stake_pool_metas_" +:+ str target_epoch +:+ ".json");
   "--snapshot-slot"; str target_slot].

(** Lines 33-93, the body of [for dir_name in epoch_dirs]. *)
Definition loop_body (dir_name : string) : M world unit :=
  match re_match epochs_dir_regex dir_name with
  | None => ret tt
  | Some m =>
      let target_epoch := group0_int m in
      if target_epoch <? 516
      then emit (Print ("Skipping epoch " +:+ str target_epoch
                        +:+ " - not supported"))
      else
        let epoch_dir := path_join epochs_dir dir_name in
        (w <- get ;;
         if negb (exists_dir_entry w dir_name)
         then emit (Print ("Warning: epoch " +:+ str target_epoch
                           +:+ " not prepped. Skipping."))
         else
           delete_previous_artifacts epoch_dir dir_name ;;;
           w <- get ;;
           if negb (bool_decide (GENERATOR_BINARY ∈ binaries w))
           then emit (Print ("Error: binary " +:+ GENERATOR_BINARY
                             +:+ " not found. Have you built the crate?")) ;;;
                sys_exit 1
           else
             makedirs_exist_ok epoch_dir dir_name ;;;
             w <- get ;;
             match epoch_schedule w with
             | None => raise RpcError
             | Some schedule =>
                 let target_slot := schedule target_epoch in
                 emit (Print ("Processing epoch " +:+ str target_epoch
                              +:+ " (slot: " +:+ str target_slot +:+ ")...")) ;;;
                 subprocess_run generator
                   (metas_cmd epoch_dir target_epoch target_slot)
                   [("RUST_LOG", "error")] ;;;
                 emit (Print ("Done processing epoch " +:+ str target_epoch))
             end)
  end.

(** The loop over the sorted directory names. *)
Definition process (epoch_dirs : list string) : M world unit :=
  for_each epoch_dirs loop_body.

(** [main()]; [len(sys.argv) < 1] never holds. *)
Definition main : M world unit :=
  emit (Print "Generating stake pool metas for all epochs") ;;;
  w <- get ;;
  let epoch_dirs := sort (listdir (data_dir w)) in
  process epoch_dirs.

End Main.
End GenerateAllMetas.

(** ** [generate_all_stats.py] *)

Module GenerateAllStats.
Import Py Script Fs.

Definition GENERATOR_BINARY : string := "generate-normalized-stats".

(** ["stake_pool_metas_([0-9]+).json"]; the dot is not escaped. *)
Definition metas_file_regex : regex :=
  Seq (Lit "stake_pool_metas_")
      (Seq (Group (Many1 Digit09)) (Seq (One AnyChar) (Lit "json"))).

Definition live_price_flag : string := "--use-live-price-fallback".

Section Main.
Variable generator : list string → world → world * Z.
(** The real paths of [<script_dir>/../output] and of
    [<script_dir>/../target/release]. *)
Variables metas_dir release_dir : string.

Definition bin_path : string := path_join release_dir GENERATOR_BINARY.

(** Lines 53 and 58-68: [is_latest] and the command line. *)
Definition stats_cmd (live_epoch target_epoch : Z) : list string :=
  let output_path :=
    path_join metas_dir ("stats_" +:+ str target_epoch +:+ ".json") in
  let is_latest := target_epoch =? live_epoch - 1 in
  let cmd := [bin_path; "--metas-dir"; metas_dir; "--out-path"; output_path;
              "--epoch"; str target_epoch] in
  if is_latest then (cmd ++ [live_price_flag])%list else cmd.

(** Lines 36-74, the body of [for file_name in metas_files]. *)
Definition loop_body (live_epoch : Z) (file_name : string) : M world unit :=
  match re_match metas_file_regex file_name with
  | None => ret tt
  | Some m =>
      let target_epoch := group0_int m in
      (w <- get ;;
       if negb (bool_decide (GENERATOR_BINARY ∈ binaries w))
       then emit (Print ("Error: binary " +:+ GENERATOR_BINARY
                         +:+ " not found. Have you built the crate?")) ;;;
            sys_exit 1
       else
         emit (Print ("Generating stats for epoch " +:+ str target_epoch
                      +:+ "...")) ;;;
         subprocess_run generator (stats_cmd live_epoch target_epoch)
           [("RUST_LOG", "error")] ;;;
         emit (Print ("Done processing epoch " +:+ str target_epoch)))
  end.

Definition process (live_epoch : Z) (metas_files : list string)
  : M world unit :=
  for_each metas_files (loop_body live_epoch).

(** [main()]: the live epoch is read once, before the loop. *)
Definition main : M world unit :=
  emit (Print "Generating stake pool stats for all epochs") ;;;
  w <- get ;;
  match epoch_info w with
  | None => raise RpcError
  | Some live_epoch =>
      let metas_files := sort (elements (output_dir w)) in
      process live_epoch metas_files
  end.

End Main.
End GenerateAllStats.

(** ** [prepare_epoch.py]: the snapshot locator *)

Module PrepareEpoch.
Import Py Script.

Definition JITO_PREFERRED_WAREHOUSE : string := "ny-mainnet-warehouse-1".

(** A blob of the bucket listing: the attributes the script reads. *)
Record blob := Blob { name : string; size : Z; media_link : string }.

(** [f"{target_epoch}/[^/]+/snapshot-{target_slot}-.+\.tar\.zst"]. *)
Definition snapshot_regex (target_epoch target_slot : Z) : regex :=
  Seq (Lit (str target_epoch +:+ "/"))
      (Seq (Many1 NotSlash)
           (Seq (Lit ("/snapshot-" +:+ str target_slot +:+ "-"))
                (Seq (Many1 AnyChar) (Lit ".tar.zst")))).

(** [find_blob_in_bucket], given what [bucket.list_blobs()] yields. *)
Definition find_blob_in_bucket (blobs : list blob) (regex_pattern : regex)
  : list blob :=
  List.filter (λ b, bool_decide (is_Some (re_search regex_pattern (name b)))) blobs.

(** [JITO_PREFERRED_WAREHOUSE in snapshot.name]. *)
Definition has_tag (b : blob) : bool :=
  str_in JITO_PREFERRED_WAREHOUSE (name b).

(** Lines 65-71: the loop with its [break], started with
    [selected_snapshot_blob = snapshots_found[0]], [found_preferred = False]. *)
Fixpoint preferred_loop (snapshots : list blob) (selected : blob * bool)
  : blob * bool :=
  match snapshots with
  | [] => selected
  | snapshot :: snapshots' =>
      if has_tag snapshot
      then (snapshot, true)
      else preferred_loop snapshots' selected
  end.

Definition bool_str (b : bool) : string := if b then "True" else "False".

(** The size filter of lines 58-60. *)
Definition size_filter (snapshots_found : list blob) : list blob :=
  List.filter (λ b, 10000000000 <? size b) snapshots_found.

Definition find_jito_snapshot (blobs : list blob) (target_epoch target_slot : Z)
  : M unit (string * string) :=
  let snapshots_found :=
    find_blob_in_bucket blobs (snapshot_regex target_epoch target_slot) in
  let snapshots_found := size_filter snapshots_found in
  match snapshots_found with
  | [] =>
      emit (Print ("No snapshot found for epoch " +:+ str target_epoch
                   +:+ " at slot " +:+ str target_slot)) ;;;
      sys_exit 1
  | first :: _ =>
      let sel := preferred_loop snapshots_found (first, false) in
      let selected_snapshot_name := last_segment "/" (name sel.1) in
      (emit (Print ("Selected snapshot: " +:+ selected_snapshot_name
                    +:+ " (preferred: " +:+ bool_str sel.2 +:+ ")")) ;;;
       ret (selected_snapshot_name, media_link sel.1))
  end.

End PrepareEpoch.

(** ** Reading a run *)

(** The command lines of the subprocesses a run starts, in order. *)
Definition runs (tr : list event) : list (list string) :=
  omap (λ ev, match ev with Run cmd _ => Some cmd | _ => None end) tr.

(** The printed lines of a run, in order. *)
Definition printed (tr : list event) : list string :=
  omap (λ ev, match ev with Print line => Some line | _ => None end) tr.

(** The epoch [generate_all_metas.py] reads from a directory name, and the
    one [generate_all_stats.py] reads from a file name, when they match. *)
Definition dir_epoch (dir_name : string) : option Z :=
  Py.group0_int <$> Py.re_match GenerateAllMetas.epochs_dir_regex dir_name.

Definition metas_file_epoch (file_name : string) : option Z :=
  Py.group0_int <$> Py.re_match GenerateAllStats.metas_file_regex file_name.

(** ** The purge, read from the state it starts in *)

(** The removals the purge makes, decided on the world [w] it starts in. *)
Definition purge_calls (epoch_dir d : string) (w : world) : list event :=
  ((if Fs.isdir w d "rocksdb"
    then [Rmtree (Py.path_join epoch_dir "rocksdb")] else [])
   ++ (if Fs.isdir w d "stake-pools.accounts"
       then [Rmtree (Py.path_join epoch_dir "stake-pools.accounts")] else [])
   ++ (if Fs.isfile w d "genesis.bin"
       then [Remove (Py.path_join epoch_dir "genesis.bin")] else []))%list.

(** The entries of a workspace without the derived artifacts: the
    directories [rocksdb] and [stake-pools.accounts], the file
    [genesis.bin]. *)
Definition without_derived (es : gmap string kind) : gmap string kind :=
  let es1 := if decide (es !! "rocksdb" = Some KDir)
             then delete "rocksdb" es else es in
  let es2 := if decide (es !! "stake-pools.accounts" = Some KDir)
             then delete "stake-pools.accounts" es1 else es1 in
  if decide (es !! "genesis.bin" = Some KFile)
  then delete "genesis.bin" es2 else es2.

(** ** Concrete worlds *)

Module Examples.

(** A generator that leaves the world alone and exits with [code]. *)
Definition exits_with (code : Z) : list string → world → world * Z :=
  λ _ w, (w, code).

(** The chain: 432000 slots per epoch. *)
Definition schedule : Z → Z := λ epoch, 432000 * (epoch + 1) - 1.

Definition prepared : gmap string kind :=
  {[ "genesis.tar.bz2" := KFile; "rocksdb" := KDir; "genesis.bin" := KFile ]}.

(** Workspaces for the epochs 400, 517 and 1000, metas for 517 and 1000,
    both binaries built, live epoch 518. *)
Definition w0 : world :=
  {| data_dir := {[ "epoch_400" := Dir prepared;
                    "epoch_517" := Dir prepared;
                    "epoch_1000" := Dir ∅ ]};
     output_dir := {[ "stake_pool_metas_517.json";
                      "stake_pool_metas_1000.json" ]};
     binaries := {[ "generate-metas"; "generate-normalized-stats" ]};
     epoch_schedule := Some schedule;
     epoch_info := Some 518 |}.

(** The same with the workspace of epoch 517 alone. *)
Definition w1 : world :=
  {| data_dir := {[ "epoch_517" := Dir prepared ]};
     output_dir := {[ "stake_pool_metas_517.json" ]};
     binaries := {[ "generate-metas"; "generate-normalized-stats" ]};
     epoch_schedule := Some schedule;
     epoch_info := Some 518 |}.

(** The snapshot candidates of the specification's example, for epoch 600
    and slot 259631999: 5 GB, 11 GB in another warehouse, 12 GB in the
    preferred warehouse. *)
Definition small : PrepareEpoch.blob :=
  {| PrepareEpoch.name := "600/fra-mainnet-warehouse-2/snapshot-259631999-AAA.tar.zst";
     PrepareEpoch.size := 5000000000;
     PrepareEpoch.media_link := "https://storage/small" |}.

Definition other : PrepareEpoch.blob :=
  {| PrepareEpoch.name := "600/ams-mainnet-warehouse-3/snapshot-259631999-BBB.tar.zst";
     PrepareEpoch.size := 11000000000;
     PrepareEpoch.media_link := "https://storage/other" |}.

Definition preferred : PrepareEpoch.blob :=
  {| PrepareEpoch.name := "600/ny-mainnet-warehouse-1/snapshot-259631999-CCC.tar.zst";
     PrepareEpoch.size := 12000000000;
     PrepareEpoch.media_link := "https://storage/preferred" |}.

(** A candidate of exactly 10,000,000,000 bytes. *)
Definition exactly_10GB : PrepareEpoch.blob :=
  {| PrepareEpoch.name := "600/ny-mainnet-warehouse-1/snapshot-259631999-DDD.tar.zst";
     PrepareEpoch.size := 10000000000;
     PrepareEpoch.media_link := "https://storage/exact" |}.

(** A world with no binary built, and one whose chain does not answer. *)
Definition no_binaries (w : world) : world :=
  {| data_dir := data_dir w; output_dir := output_dir w; binaries := ∅;
     epoch_schedule := epoch_schedule w; epoch_info := epoch_info w |}.

Definition offline (w : world) : world :=
  {| data_dir := data_dir w; output_dir := output_dir w;
     binaries := binaries w; epoch_schedule := None; epoch_info := None |}.

End Examples.

(** * Properties *)

Import Py Script Fs.

(** ** The loop combinator *)

Lemma for_each_nil {S X} (body : X → M S unit) (s : S) :
  for_each [] body s = Result [] s (Normal tt).
Proof. reflexivity. Qed.

Lemma for_each_cons {S X} (x : X) (l : list X) (body : X → M S unit) (s : S) :
  for_each (x :: l) body s = bind (body x) (λ _, for_each l body) s.
Proof. reflexivity. Qed.

(** An iteration that does nothing leaves the loop as it is without it. *)
Lemma for_each_skip {S X} (x : X) (l : list X) (body : X → M S unit) (s : S) :
  body x s = Result [] s (Normal tt) →
  for_each (x :: l) body s = for_each l body s.
Proof.
  intros Hx. rewrite for_each_cons. unfold bind. rewrite Hx. simpl.
  by destruct (for_each l body s).
Qed.

(** ** [upload_stats.py]: what the loop leaves behind *)

Section UploadLoop.
Import UploadStats.
Variable stats_dir : string.

Lemma loop_body_eq (f : string) (l : locals) :
  loop_body stats_dir f l
  = match parse_epoch f with
    | Some e => Result (upload_events stats_dir f)
                  {| the_manifest := record_epoch e (the_manifest l);
                     blob := Some (blob_name_of f) |} (Normal tt)
    | None => Result [] l (Normal tt)
    end.
Proof.
  unfold loop_body, parse_epoch.
  destruct (re_match stats_file_regex f) as [m|]; reflexivity.
Qed.

Lemma upload_loop (files : list string) (l : locals) :
  for_each files (loop_body stats_dir) l
  = Result (loop_trace stats_dir files) (loop_locals files l) (Normal tt).
Proof.
  revert l. induction files as [|f files IH]; intros l; [done|].
  rewrite for_each_cons. unfold bind. rewrite loop_body_eq. simpl.
  destruct (parse_epoch f) as [e|]; simpl; rewrite IH; done.
Qed.

Lemma loop_locals_epochs (files : list string) (l : locals) :
  epochs (the_manifest (loop_locals files l))
  = (epochs (the_manifest l) ++ parsed_epochs files)%list.
Proof.
  revert l. induction files as [|f files IH]; intros l; simpl.
  - by rewrite app_nil_r.
  - unfold parsed_epochs. simpl. destruct (parse_epoch f) as [e|]; rewrite IH; simpl.
    + by rewrite <- app_assoc.
    + done.
Qed.

Lemma record_epoch_max (e : Z) (m : manifest) :
  is_max (latest m) (epochs m) →
  is_max (latest (record_epoch e m)) (epochs (record_epoch e m)).
Proof.
  unfold record_epoch, is_max. simpl. destruct (latest m) as [l|].
  - intros [Hin Hmax]. destruct (Z.ltb_spec l e).
    + split; [set_solver|]. intros e' [He'| ->%list_elem_of_singleton]%elem_of_app; [|lia].
      specialize (Hmax _ He'). lia.
    + split; [set_solver|]. intros e' [He'| ->%list_elem_of_singleton]%elem_of_app; [|lia].
      by apply Hmax.
  - intros ->. split; [set_solver|]. intros e' ->%list_elem_of_singleton. lia.
Qed.

Lemma loop_locals_max (files : list string) (l : locals) :
  is_max (latest (the_manifest l)) (epochs (the_manifest l)) →
  is_max (latest (the_manifest (loop_locals files l)))
         (epochs (the_manifest (loop_locals files l))).
Proof.
  revert l. induction files as [|f files IH]; intros l Hl; simpl; [done|].
  destruct (parse_epoch f) as [e|]; apply IH; [|done].
  simpl. by apply record_epoch_max.
Qed.

Lemma main_unfold (listing : list string) :
  let l := loop_locals (sort listing) (Locals (Manifest None []) None) in
  main stats_dir listing
  = Result
      (loop_trace stats_dir (sort listing)
       ++ [Print ("Uploading manifest to " +:+ manifest_blob_name);
           UploadFromString manifest_blob_name (json_dumps (the_manifest l))]
       ++ match blob l with
          | None => []
          | Some b => [AclGrantAllRead b; AclSave b]
          end)
      l
      (match blob l with
       | None => Raised (UnboundLocalError "blob")
       | Some _ => Normal tt
       end).
Proof.
  intros l. unfold main. unfold bind at 1. rewrite upload_loop. simpl.
  fold l. unfold bind, get, emit, raise. simpl.
  destruct (blob l); simpl; done.
Qed.

Lemma built_manifest_eq (listing : list string) :
  built_manifest stats_dir listing
  = the_manifest (loop_locals (sort listing) (Locals (Manifest None []) None)).
Proof. unfold built_manifest. by rewrite main_unfold. Qed.

Lemma sort_Permutation (l : list string) : sort l ≡ₚ l.
Proof. apply merge_sort_Permutation. Qed.

Lemma parsed_epochs_sort (listing : list string) :
  parsed_epochs (sort listing) ≡ₚ parsed_epochs listing.
Proof. unfold parsed_epochs. by rewrite sort_Permutation. Qed.

End UploadLoop.

(** ** [upload_stats.py]: the manifest *)

Import UploadStats.

Lemma is_max_Permutation (o : option Z) (l l' : list Z) :
  l ≡ₚ l' → is_max o l → is_max o l'.
Proof.
  intros Hp. destruct o as [e|]; simpl.
  - intros [Hin Hmax]. split; [by rewrite <- Hp|].
    intros e' He'. apply Hmax. by rewrite Hp.
  - intros ->. by apply Permutation_nil_l in Hp.
Qed.

Lemma is_max_unique (o o' : option Z) (l : list Z) :
  is_max o l → is_max o' l → o = o'.
Proof.
  destruct o as [e|], o' as [e'|]; simpl; try done.
  - intros [Hin Hmax] [Hin' Hmax']. f_equal.
    specialize (Hmax _ Hin'). specialize (Hmax' _ Hin). lia.
  - intros [Hin _] ->. by apply not_elem_of_nil in Hin.
  - intros -> [Hin _]. by apply not_elem_of_nil in Hin.
Qed.

Lemma built_manifest_epochs (stats_dir : string) (listing : list string) :
  epochs (built_manifest stats_dir listing) = parsed_epochs (sort listing).
Proof. rewrite built_manifest_eq. by rewrite loop_locals_epochs. Qed.

Lemma built_manifest_latest (stats_dir : string) (listing : list string) :
  is_max (latest (built_manifest stats_dir listing)) (parsed_epochs listing).
Proof.
  apply (is_max_Permutation _ (parsed_epochs (sort listing)));
    [apply parsed_epochs_sort|].
  rewrite <- (built_manifest_epochs stats_dir).
  rewrite built_manifest_eq. by apply loop_locals_max.
Qed.

Lemma parsed_epochs_Permutation (l l' : list string) :
  l ≡ₚ l' → parsed_epochs l ≡ₚ parsed_epochs l'.
Proof. intros Hp. unfold parsed_epochs. by rewrite Hp. Qed.

(** C7: the manifest [main] builds and uploads has [latest] equal to the
    largest epoch parsed from the listed file names and [epochs] equal, as a
    set, to the epochs parsed; another listing order of the same files gives
    the same [latest] and the same set of epochs. *)
Theorem manifest_latest_max_epochs_all
  (stats_dir : string) (listing listing' : list string) :
  listing' ≡ₚ listing →
  let m := built_manifest stats_dir listing in
  let m' := built_manifest stats_dir listing' in
  is_max (latest m) (parsed_epochs listing)
  ∧ (∀ e, e ∈ epochs m ↔ e ∈ parsed_epochs listing)
  ∧ latest m' = latest m
  ∧ (∀ e, e ∈ epochs m' ↔ e ∈ epochs m)
  ∧ UploadFromString manifest_blob_name (json_dumps m)
      ∈ trace (main stats_dir listing).
Proof.
  intros Hp m m'.
  assert (Hm : ∀ l e, e ∈ epochs (built_manifest stats_dir l)
                      ↔ e ∈ parsed_epochs l).
  { intros l e. rewrite built_manifest_epochs. by rewrite parsed_epochs_sort. }
  split_and!.
  - apply built_manifest_latest.
  - apply Hm.
  - apply (is_max_unique _ _ (parsed_epochs listing)).
    + apply (is_max_Permutation _ (parsed_epochs listing')).
      * by apply parsed_epochs_Permutation.
      * apply built_manifest_latest.
    + apply built_manifest_latest.
  - intros e. unfold m, m'. rewrite !Hm.
    by rewrite (parsed_epochs_Permutation _ _ Hp).
  - rewrite main_unfold. simpl. rewrite <- (built_manifest_eq stats_dir). fold m.
    apply elem_of_app. right. apply elem_of_cons. right. apply elem_of_cons. by left.
Qed.

(** The example of the specification: the stats files of the epochs 516,
    517 and 519, listed in another order. *)
Lemma manifest_latest_max_epochs_all_witness :
  ["stats_519.json"; "stats_516.json"; "stats_517.json"]
    ≡ₚ ["stats_516.json"; "stats_517.json"; "stats_519.json"]
  ∧ latest (built_manifest "/repo/output"
              ["stats_519.json"; "stats_516.json"; "stats_517.json"])
    = latest (built_manifest "/repo/output"
                ["stats_516.json"; "stats_517.json"; "stats_519.json"]).
Proof.
  assert (Hp : ["stats_519.json"; "stats_516.json"; "stats_517.json"]
                 ≡ₚ ["stats_516.json"; "stats_517.json"; "stats_519.json"]).
  { etrans; [apply perm_swap|]. apply perm_skip, perm_swap. }
  split; [exact Hp|].
  exact (proj1 (proj2 (proj2
    (manifest_latest_max_epochs_all "/repo/output" _ _ Hp)))).
Defined.

Example manifest_516_517_519 :
  built_manifest "/repo/output"
    ["stats_519.json"; "stats_516.json"; "stats_517.json"]
  = {| latest := Some 519; epochs := [516; 517; 519] |}.
Proof. vm_compute. reflexivity. Qed.

(** ** [upload_stats.py]: who is granted public read *)

Lemma loop_no_match (stats_dir : string) (files : list string) (l : locals) :
  (∀ f, f ∈ files → re_match stats_file_regex f = None) →
  loop_trace stats_dir files = [] ∧ loop_locals files l = l.
Proof.
  induction files as [|f files IH]; intros Hnone; [done|]. simpl.
  unfold parse_epoch. rewrite (Hnone f) by (by left). simpl.
  apply IH. intros f' Hf'. apply Hnone. by right.
Qed.

(** C10: when no listed file name matches [stats_file_regex], the run uploads
    the manifest with [latest] null and no epochs, and then stops on the
    unbound variable [blob] of line 49. *)
Theorem no_stats_file_null_manifest_then_unbound_blob
  (stats_dir : string) (listing : list string) :
  (∀ f, f ∈ listing → re_match stats_file_regex f = None) →
  main stats_dir listing
  = Result
      [Print "Uploading manifest to stake_pool_data/manifest.json";
       UploadFromString "stake_pool_data/manifest.json"
         ("{" +:+ dquote +:+ "latest" +:+ dquote +:+ ": null, "
              +:+ dquote +:+ "epochs" +:+ dquote +:+ ": []}")]
      {| the_manifest := {| latest := None; epochs := [] |}; blob := None |}
      (Raised (UnboundLocalError "blob")).
Proof.
  intros Hnone. rewrite main_unfold.
  assert (Hs : ∀ f, f ∈ sort listing → re_match stats_file_regex f = None).
  { intros f Hf. apply Hnone. by rewrite <- (sort_Permutation listing). }
  destruct (loop_no_match stats_dir (sort listing)
              (Locals (Manifest None []) None) Hs) as [-> ->].
  reflexivity.
Qed.

Lemma no_stats_file_null_manifest_then_unbound_blob_witness :
  out (main "/repo/output" ["manifest.json"; "stake_pool_metas_516.json"])
  = Raised (UnboundLocalError "blob").
Proof.
  rewrite (no_stats_file_null_manifest_then_unbound_blob "/repo/output"
             ["manifest.json"; "stake_pool_metas_516.json"]).
  - reflexivity.
  - intros f Hf.
    apply elem_of_cons in Hf as [->|Hf]; [reflexivity|].
    apply elem_of_cons in Hf as [->|Hf]; [reflexivity|].
    by apply not_elem_of_nil in Hf.
Defined.

Lemma public_read_granted (tr : list event) (b : string) :
  public_read tr b → AclGrantAllRead b ∈ tr.
Proof.
  intros (tr1 & tr2 & tr3 & ->). apply elem_of_app. right. by left.
Qed.

Lemma blob_name_of_not_manifest (f : string) :
  is_Some (parse_epoch f) → blob_name_of f ≠ manifest_blob_name.
Proof.
  intros [e He] Heq.
  unfold blob_name_of, manifest_blob_name, STAKE_POOL_STATS_DIR in Heq.
  vm_compute in Heq. injection Heq as Heq. subst f.
  vm_compute in He. discriminate.
Qed.

Lemma loop_trace_grants (stats_dir : string) (files : list string) (b : string) :
  AclGrantAllRead b ∈ loop_trace stats_dir files →
  ∃ f, f ∈ files ∧ is_Some (parse_epoch f) ∧ b = blob_name_of f.
Proof.
  induction files as [|f files IH]; simpl; [by intros ?%not_elem_of_nil|].
  destruct (parse_epoch f) as [e|] eqn:He.
  - intros Hin. unfold upload_events in Hin. simpl in Hin.
    do 2 (apply elem_of_cons in Hin as [Hin|Hin]; [discriminate|]).
    apply elem_of_cons in Hin as [Hin|Hin].
    { exists f. split; [by left|]. split; [by rewrite He|]. by simplify_eq. }
    apply elem_of_cons in Hin as [Hin|Hin]; [discriminate|].
    destruct (IH Hin) as (f' & ? & ? & ?). exists f'. split; [by right|done].
  - intros Hin. destruct (IH Hin) as (f' & ? & ? & ?).
    exists f'. split; [by right|done].
Qed.

Lemma loop_locals_blob (files : list string) (l : locals) (b : string) :
  blob (loop_locals files l) = Some b →
  blob l = Some b ∨ ∃ f, f ∈ files ∧ is_Some (parse_epoch f) ∧ b = blob_name_of f.
Proof.
  revert l. induction files as [|f files IH]; intros l; simpl; [by left|].
  destruct (parse_epoch f) as [e|] eqn:He; intros Hb.
  - destruct (IH _ Hb) as [Hl|(f' & ? & ? & ?)].
    + simpl in Hl. right. exists f. split; [by left|]. split; [by rewrite He|].
      by simplify_eq.
    + right. exists f'. split; [by right|done].
  - destruct (IH _ Hb) as [Hl|(f' & ? & ? & ?)]; [by left|].
    right. exists f'. split; [by right|done].
Qed.

(** Whatever the listing, the run uploads the manifest blob and never grants
    read access on it: the calls of lines 49-50 go to the last stats blob. *)
Lemma manifest_blob_never_granted (stats_dir : string) (listing : list string) :
  uploaded (trace (main stats_dir listing)) manifest_blob_name
  ∧ ¬ public_read (trace (main stats_dir listing)) manifest_blob_name.
Proof.
  rewrite main_unfold. simpl. split.
  - eexists. right. apply elem_of_app. right. right. by left.
  - intros Hin%public_read_granted.
    apply elem_of_app in Hin as [Hin|Hin].
    + apply loop_trace_grants in Hin as (f & _ & Hf & Heq).
      by apply (blob_name_of_not_manifest f).
    + do 2 (apply elem_of_cons in Hin as [Hin|Hin]; [discriminate|]).
      destruct (blob _) as [b|] eqn:Hb; [|by apply not_elem_of_nil in Hin].
      apply elem_of_cons in Hin as [Hin|Hin].
      * apply loop_locals_blob in Hb as [Hb|(f & _ & Hf & Heq)];
          [simpl in Hb; discriminate|].
        apply (blob_name_of_not_manifest f Hf). congruence.
      * apply elem_of_cons in Hin as [Hin|Hin]; [discriminate|].
        by apply not_elem_of_nil in Hin.
Qed.

(** C1, at the output directory holding [stats_516.json] alone: the stats
    blob is uploaded and made public, the manifest blob is uploaded and is
    not; the two ACL calls after the manifest upload name the stats blob. *)
Theorem manifest_upload_not_public_read :
  trace (main "/repo/output" ["stats_516.json"])
  = [Print "Uploading /repo/output/stats_516.json to stake_pool_data/stats_516.json";
     UploadFromFilename "stake_pool_data/stats_516.json"
       "/repo/output/stats_516.json";
     AclGrantAllRead "stake_pool_data/stats_516.json";
     AclSave "stake_pool_data/stats_516.json";
     Print "Uploading manifest to stake_pool_data/manifest.json";
     UploadFromString "stake_pool_data/manifest.json"
       ("{" +:+ dquote +:+ "latest" +:+ dquote +:+ ": 516, "
            +:+ dquote +:+ "epochs" +:+ dquote +:+ ": [516]}");
     AclGrantAllRead "stake_pool_data/stats_516.json";
     AclSave "stake_pool_data/stats_516.json"]
  ∧ public_read (trace (main "/repo/output" ["stats_516.json"]))
      "stake_pool_data/stats_516.json"
  ∧ uploaded (trace (main "/repo/output" ["stats_516.json"]))
      "stake_pool_data/manifest.json"
  ∧ ¬ public_read (trace (main "/repo/output" ["stats_516.json"]))
      "stake_pool_data/manifest.json".
Proof.
  split; [by vm_compute|]. split.
  - eexists [_; _], [], _. by vm_compute.
  - apply (manifest_blob_never_granted "/repo/output" ["stats_516.json"]).
Qed.

(** ** The purge of the derived artifacts *)

Lemma child_remove_child (d c c' : string) (w : world) :
  child (remove_child d c w) d c'
  = if decide (c = c') then None else child w d c'.
Proof.
  unfold child, remove_child. simpl. rewrite lookup_alter_eq.
  destruct (data_dir w !! d) as [[|es]|]; simpl; case_decide; try done.
  - subst. apply lookup_delete_eq.
  - by apply lookup_delete_ne.
Qed.

Lemma isdir_remove_child (d c c' : string) (w : world) :
  isdir (remove_child d c w) d c'
  = if decide (c = c') then false else isdir w d c'.
Proof. unfold isdir. rewrite child_remove_child. by case_decide. Qed.

Lemma isfile_remove_child (d c c' : string) (w : world) :
  isfile (remove_child d c w) d c'
  = if decide (c = c') then false else isfile w d c'.
Proof. unfold isfile. rewrite child_remove_child. by case_decide. Qed.

(** Nothing to remove: no call is made and the world stays as it is. *)
Lemma purge_noop (epoch_dir d : string) (w : world) :
  isdir w d "rocksdb" = false →
  isdir w d "stake-pools.accounts" = false →
  isfile w d "genesis.bin" = false →
  delete_previous_artifacts epoch_dir d w = Result [] w (Normal tt).
Proof.
  intros H1 H2 H3. unfold delete_previous_artifacts, bind, get. simpl.
  rewrite H1. simpl. rewrite H2. simpl. rewrite H3. done.
Qed.

(** The purge always falls through, and none of the three derived
    artifacts is left. *)
Lemma purge_clears (epoch_dir d : string) (w : world) :
  let r := delete_previous_artifacts epoch_dir d w in
  out r = Normal tt
  ∧ isdir (final r) d "rocksdb" = false
  ∧ isdir (final r) d "stake-pools.accounts" = false
  ∧ isfile (final r) d "genesis.bin" = false.
Proof.
  unfold delete_previous_artifacts, bind, get, put, emit, ret. simpl.
  destruct (isdir w d "rocksdb") eqn:H1; simpl;
    rewrite ?isdir_remove_child; simpl;
    destruct (isdir w d "stake-pools.accounts") eqn:H2; simpl;
    rewrite ?isfile_remove_child; simpl;
    destruct (isfile w d "genesis.bin") eqn:H3; simpl;
    rewrite ?isdir_remove_child, ?isfile_remove_child; simpl;
    rewrite ?H1, ?H2, ?H3; done.
Qed.

(** C8: the purge of the derived artifacts never fails; run a second time
    right after, it removes nothing, raises nothing and leaves the state of
    the first run, in which no ledger-state directory, accounts directory or
    unpacked genesis file exists; on a fresh, empty workspace it does
    nothing at all. *)
Theorem reset_derived_idempotent (epoch_dir dir_name : string) (w : world) :
  let r1 := delete_previous_artifacts epoch_dir dir_name w in
  let r2 := delete_previous_artifacts epoch_dir dir_name (final r1) in
  out r1 = Normal tt
  ∧ isdir (final r1) dir_name "rocksdb" = false
  ∧ isdir (final r1) dir_name "stake-pools.accounts" = false
  ∧ isfile (final r1) dir_name "genesis.bin" = false
  ∧ r2 = Result [] (final r1) (Normal tt)
  ∧ delete_previous_artifacts epoch_dir dir_name (make_dir dir_name w)
    = Result [] (make_dir dir_name w) (Normal tt).
Proof.
  intros r1 r2.
  destruct (purge_clears epoch_dir dir_name w) as (Ho & H1 & H2 & H3).
  split_and!; try done.
  - by apply purge_noop.
  - apply purge_noop; unfold isdir, isfile, child, make_dir; simpl;
      by rewrite lookup_insert_eq.
Qed.

Example reset_derived_twice :
  let w := {| data_dir := {[ "epoch_517" :=
                Dir {[ "rocksdb" := KDir; "stake-pools.accounts" := KDir;
                       "genesis.bin" := KFile; "genesis.tar.bz2" := KFile ]} ]};
              output_dir := ∅; binaries := ∅;
              epoch_schedule := None; epoch_info := None |} in
  let r1 := delete_previous_artifacts "/repo/data/epoch_517" "epoch_517" w in
  trace r1 = [Rmtree "/repo/data/epoch_517/rocksdb";
              Rmtree "/repo/data/epoch_517/stake-pools.accounts";
              Remove "/repo/data/epoch_517/genesis.bin"]
  ∧ child (final r1) "epoch_517" "genesis.tar.bz2" = Some KFile
  ∧ trace (delete_previous_artifacts "/repo/data/epoch_517" "epoch_517"
             (final r1)) = [].
Proof. by vm_compute. Qed.

(** ** Laws of the script monad *)

Lemma bind_ext {S A B} (m : M S A) (k k' : A → M S B) (s : S) :
  (∀ a s', k a s' = k' a s') → bind m k s = bind m k' s.
Proof. intros Hk. unfold bind. destruct (out (m s)); by rewrite ?Hk. Qed.

Lemma bind_assoc {S A B C} (m : M S A) (k1 : A → M S B) (k2 : B → M S C) (s : S) :
  bind (bind m k1) k2 s = bind m (λ a, bind (k1 a) k2) s.
Proof.
  unfold bind. destruct (m s) as [tr s1 [a| |]]; simpl; try done.
  destruct (k1 a s1) as [tr' s2 [b| |]]; simpl; try done.
  by rewrite app_assoc.
Qed.

Lemma bind_ret_l {S A B} (a : A) (k : A → M S B) (s : S) :
  bind (ret a) k s = k a s.
Proof. unfold bind, ret. simpl. by destruct (k a s). Qed.

Lemma for_each_app {S X} (l1 l2 : list X) (body : X → M S unit) (s : S) :
  for_each (l1 ++ l2) body s
  = bind (for_each l1 body) (λ _, for_each l2 body) s.
Proof.
  revert s. induction l1 as [|x l1 IH]; intros s; simpl.
  - by rewrite bind_ret_l.
  - rewrite bind_assoc. by apply bind_ext.
Qed.

(** ** [generate_all_metas.py]: unsupported epochs *)

Section Metas.
Variable generator : list string → world → world * Z.
Variables epochs_dir output_path release_dir : string.

Local Abbreviation loop_body :=
  (GenerateAllMetas.loop_body generator epochs_dir output_path release_dir).

Lemma metas_body_unmatched (d : string) (w : world) :
  dir_epoch d = None → loop_body d w = Result [] w (Normal tt).
Proof.
  unfold dir_epoch, GenerateAllMetas.loop_body.
  by destruct (re_match GenerateAllMetas.epochs_dir_regex d).
Qed.

Lemma metas_body_unsupported (d : string) (e : Z) (w : world) :
  dir_epoch d = Some e → e < 516 →
  loop_body d w
  = Result [Print ("Skipping epoch " +:+ str e +:+ " - not supported")]
      w (Normal tt).
Proof.
  unfold dir_epoch, GenerateAllMetas.loop_body.
  destruct (re_match GenerateAllMetas.epochs_dir_regex d) as [m|]; [|done].
  simpl. intros [= <-] Hlt.
  by destruct (Z.ltb_spec (group0_int m) 516); [|lia].
Qed.

End Metas.

(** C9: a directory whose epoch is below 516 costs the batch one printed
    line: no file is removed, no directory made, no generator started and
    the world is left as it is; what comes before and after it in the sorted
    listing is processed as if it were not there. *)
Theorem unsupported_epoch_skipped
  (generator : list string → world → world * Z)
  (epochs_dir output_path release_dir : string)
  (before after : list string) (dir_name : string) (e : Z) (w : world) :
  dir_epoch dir_name = Some e → e < 516 →
  GenerateAllMetas.loop_body generator epochs_dir output_path release_dir
    dir_name w
  = Result [Print ("Skipping epoch " +:+ str e +:+ " - not supported")]
      w (Normal tt)
  ∧ GenerateAllMetas.process generator epochs_dir output_path release_dir
      (before ++ dir_name :: after) w
    = (GenerateAllMetas.process generator epochs_dir output_path release_dir
         before ;;;
       emit (Print ("Skipping epoch " +:+ str e +:+ " - not supported")) ;;;
       GenerateAllMetas.process generator epochs_dir output_path release_dir
         after) w.
Proof.
  intros He Hlt. split; [by apply metas_body_unsupported|].
  unfold GenerateAllMetas.process. rewrite for_each_app.
  apply bind_ext. intros _ w'. rewrite for_each_cons.
  unfold bind.
  rewrite (metas_body_unsupported generator epochs_dir output_path release_dir
             dir_name e w') by done.
  reflexivity.
Qed.

Lemma unsupported_epoch_skipped_witness :
  trace (GenerateAllMetas.process (Examples.exits_with 0)
           "/repo/data" "/repo/output" "/repo/target/release"
           ["epoch_1000"; "epoch_400"; "epoch_517"] Examples.w0)
  = trace ((GenerateAllMetas.process (Examples.exits_with 0)
              "/repo/data" "/repo/output" "/repo/target/release"
              ["epoch_1000"] ;;;
            emit (Print "Skipping epoch 400 - not supported") ;;;
            GenerateAllMetas.process (Examples.exits_with 0)
              "/repo/data" "/repo/output" "/repo/target/release"
              ["epoch_517"]) Examples.w0).
Proof.
  assert (He : dir_epoch "epoch_400" = Some 400) by (vm_compute; reflexivity).
  assert (Hlt : 400 < 516) by lia.
  exact (f_equal trace
    (proj2 (unsupported_epoch_skipped (Examples.exits_with 0)
              "/repo/data" "/repo/output" "/repo/target/release"
              ["epoch_1000"] ["epoch_517"] "epoch_400" 400 Examples.w0
              He Hlt))).
Defined.

(** ** The exit code of the generators *)

Lemma subprocess_run_bind_ext {B}
  (gen1 gen2 : list string → world → world * Z)
  (cmd : list string) (env : list (string * string))
  (k : M world B) (w : world) :
  (∀ cmd' w', (gen1 cmd' w').1 = (gen2 cmd' w').1) →
  bind (subprocess_run gen1 cmd env) (λ _, k) w
  = bind (subprocess_run gen2 cmd env) (λ _, k) w.
Proof. intros H. unfold bind, subprocess_run. simpl. by rewrite H. Qed.

Lemma for_each_ext {S X} (l : list X) (body body' : X → M S unit) (s : S) :
  (∀ x s', body x s' = body' x s') →
  for_each l body s = for_each l body' s.
Proof.
  intros Hb. revert s. induction l as [|x l IH]; intros s; [done|].
  rewrite !for_each_cons. unfold bind. rewrite Hb.
  destruct (out (body' x s)); by rewrite ?IH.
Qed.

Ltac step_script H :=
  repeat first
    [ reflexivity
    | apply (subprocess_run_bind_ext _ _ _ _ _ _ H)
    | apply bind_ext; intros ? ?
    | case_match ].

Lemma metas_body_exit_code
  (gen1 gen2 : list string → world → world * Z)
  (epochs_dir output_path release_dir d : string) (w : world) :
  (∀ cmd w', (gen1 cmd w').1 = (gen2 cmd w').1) →
  GenerateAllMetas.loop_body gen1 epochs_dir output_path release_dir d w
  = GenerateAllMetas.loop_body gen2 epochs_dir output_path release_dir d w.
Proof.
  intros H. unfold GenerateAllMetas.loop_body. step_script H.
Qed.

Lemma stats_body_exit_code
  (gen1 gen2 : list string → world → world * Z)
  (metas_dir release_dir : string) (live_epoch : Z) (f : string) (w : world) :
  (∀ cmd w', (gen1 cmd w').1 = (gen2 cmd w').1) →
  GenerateAllStats.loop_body gen1 metas_dir release_dir live_epoch f w
  = GenerateAllStats.loop_body gen2 metas_dir release_dir live_epoch f w.
Proof.
  intros H. unfold GenerateAllStats.loop_body. step_script H.
Qed.

(** C2, as the code has it: the exit code of a generator run is not looked
    at. Two generators that act alike on the world and differ in their exit
    codes give the same batch run: same calls and printed lines, same final
    world, same outcome; so a failing generator is followed by the line
    "Done processing epoch" and by the next epoch, like a successful one. *)
Theorem generator_exit_code_ignored
  (gen1 gen2 : list string → world → world * Z)
  (epochs_dir output_path release_dir : string) (w : world) :
  (∀ cmd w', (gen1 cmd w').1 = (gen2 cmd w').1) →
  GenerateAllMetas.main gen1 epochs_dir output_path release_dir w
  = GenerateAllMetas.main gen2 epochs_dir output_path release_dir w
  ∧ GenerateAllStats.main gen1 output_path release_dir w
    = GenerateAllStats.main gen2 output_path release_dir w.
Proof.
  intros H. split.
  - unfold GenerateAllMetas.main, GenerateAllMetas.process.
    do 2 (apply bind_ext; intros ? ?).
    apply for_each_ext. intros. by apply metas_body_exit_code.
  - unfold GenerateAllStats.main, GenerateAllStats.process.
    do 2 (apply bind_ext; intros ? ?). case_match; [|done].
    apply for_each_ext. intros. by apply stats_body_exit_code.
Qed.

Lemma generator_exit_code_ignored_witness :
  GenerateAllMetas.main (Examples.exits_with 1)
    "/repo/data" "/repo/output" "/repo/target/release" Examples.w0
  = GenerateAllMetas.main (Examples.exits_with 0)
      "/repo/data" "/repo/output" "/repo/target/release" Examples.w0.
Proof.
  exact (proj1 (generator_exit_code_ignored
                  (Examples.exits_with 1) (Examples.exits_with 0)
                  "/repo/data" "/repo/output" "/repo/target/release"
                  Examples.w0 (λ _ _, eq_refl))).
Defined.

(** C2 as stated fails: with a generator that exits with status 1 the
    batch over the workspace of epoch 517 prints what it prints for a
    successful generator, ends normally, and is the very same run. *)
Lemma failed_generator_goes_unreported :
  printed (trace (GenerateAllMetas.main (Examples.exits_with 1)
             "/repo/data" "/repo/output" "/repo/target/release" Examples.w1))
  = ["Generating stake pool metas for all epochs";
     "Processing epoch 517 (slot: 223775999)...";
     "Done processing epoch 517"]
  ∧ out (GenerateAllMetas.main (Examples.exits_with 1)
           "/repo/data" "/repo/output" "/repo/target/release" Examples.w1)
    = Normal tt
  ∧ printed (trace (GenerateAllStats.main (Examples.exits_with 1)
               "/repo/output" "/repo/target/release" Examples.w1))
    = ["Generating stake pool stats for all epochs";
       "Generating stats for epoch 517...";
       "Done processing epoch 517"]
  ∧ out (GenerateAllStats.main (Examples.exits_with 1)
           "/repo/output" "/repo/target/release" Examples.w1)
    = Normal tt
  ∧ trace (GenerateAllMetas.main (Examples.exits_with 1)
             "/repo/data" "/repo/output" "/repo/target/release" Examples.w1)
    = trace (GenerateAllMetas.main (Examples.exits_with 0)
               "/repo/data" "/repo/output" "/repo/target/release" Examples.w1)
  ∧ trace (GenerateAllStats.main (Examples.exits_with 1)
             "/repo/output" "/repo/target/release" Examples.w1)
    = trace (GenerateAllStats.main (Examples.exits_with 0)
               "/repo/output" "/repo/target/release" Examples.w1).
Proof. split_and!; by vm_compute. Qed.

(** ** The order of a batch *)

(** C3, at the workspaces of the epochs 400, 517 and 1000: the listing is
    sorted as text, so [epoch_1000] comes before [epoch_517] and the
    generators run for epoch 1000 first, in both batch scripts. *)
Theorem batch_runs_epoch_1000_before_517 :
  sort ["epoch_517"; "epoch_1000"] = ["epoch_1000"; "epoch_517"]
  ∧ runs (trace (GenerateAllMetas.main (Examples.exits_with 0)
            "/repo/data" "/repo/output" "/repo/target/release" Examples.w0))
    = [ ["/repo/target/release/generate-metas"; "--ledger-path";
         "/repo/data/epoch_1000"; "--out-path";
         "/repo/output/stake_pool_metas_1000.json"; "--snapshot-slot";
         "432431999"];
        ["/repo/target/release/generate-metas"; "--ledger-path";
         "/repo/data/epoch_517"; "--out-path";
         "/repo/output/stake_pool_metas_517.json"; "--snapshot-slot";
         "223775999"] ]
  ∧ runs (trace (GenerateAllStats.main (Examples.exits_with 0)
            "/repo/output" "/repo/target/release" Examples.w0))
    = [ ["/repo/target/release/generate-normalized-stats"; "--metas-dir";
         "/repo/output"; "--out-path"; "/repo/output/stats_1000.json";
         "--epoch"; "1000"];
        ["/repo/target/release/generate-normalized-stats"; "--metas-dir";
         "/repo/output"; "--out-path"; "/repo/output/stats_517.json";
         "--epoch"; "517"; "--use-live-price-fallback"] ].
Proof. split_and!; by vm_compute. Qed.

(** ** [generate_all_stats.py]: the live-price fallback *)

Lemma runs_app (tr1 tr2 : list event) :
  runs (tr1 ++ tr2) = (runs tr1 ++ runs tr2)%list.
Proof. apply omap_app. Qed.

Section Stats.
Variable generator : list string → world → world * Z.
Variables metas_dir release_dir : string.
Variable live_epoch : Z.

Local Abbreviation stats_body :=
  (GenerateAllStats.loop_body generator metas_dir release_dir live_epoch).
Local Abbreviation stats_process :=
  (GenerateAllStats.process generator metas_dir release_dir live_epoch).
Local Abbreviation cmd_of :=
  (GenerateAllStats.stats_cmd metas_dir release_dir live_epoch).

Lemma stats_body_unmatched (f : string) (w : world) :
  metas_file_epoch f = None → stats_body f w = Result [] w (Normal tt).
Proof.
  unfold metas_file_epoch, GenerateAllStats.loop_body.
  by destruct (re_match GenerateAllStats.metas_file_regex f).
Qed.

Lemma stats_body_no_binary (f : string) (e : Z) (w : world) :
  metas_file_epoch f = Some e →
  GenerateAllStats.GENERATOR_BINARY ∉ binaries w →
  runs (trace (stats_body f w)) = [] ∧ out (stats_body f w) = SysExit 1.
Proof.
  unfold metas_file_epoch, GenerateAllStats.loop_body.
  destruct (re_match GenerateAllStats.metas_file_regex f) as [m|]; [|done].
  intros _ Hbin. unfold bind, get. simpl.
  by rewrite bool_decide_eq_false_2.
Qed.

Lemma stats_body_runs (f : string) (e : Z) (w : world) :
  metas_file_epoch f = Some e →
  GenerateAllStats.GENERATOR_BINARY ∈ binaries w →
  stats_body f w
  = Result [Print ("Generating stats for epoch " +:+ str e +:+ "...");
            Run (cmd_of e) [("RUST_LOG", "error")];
            Print ("Done processing epoch " +:+ str e)]
      (generator (cmd_of e) w).1 (Normal tt).
Proof.
  unfold metas_file_epoch, GenerateAllStats.loop_body.
  destruct (re_match GenerateAllStats.metas_file_regex f) as [m|]; [|done].
  simpl. intros [= <-] Hbin. unfold bind, get. simpl.
  by rewrite bool_decide_eq_true_2.
Qed.

(** The generator runs are those of the matching files, in the order of
    the sorted listing, up to the point where the loop stops. *)
Lemma stats_process_runs_prefix (files : list string) (w : world) :
  runs (trace (stats_process files w))
    `prefix_of` map cmd_of (omap metas_file_epoch files).
Proof.
  revert w. induction files as [|f files IH]; intros w; [done|].
  unfold GenerateAllStats.process in *. rewrite for_each_cons. simpl.
  destruct (metas_file_epoch f) as [e|] eqn:He.
  - destruct (decide (GenerateAllStats.GENERATOR_BINARY ∈ binaries w)) as [Hb|Hb].
    + unfold bind. rewrite (stats_body_runs f e w He Hb). simpl.
      apply prefix_cons, IH.
    + destruct (stats_body_no_binary f e w He Hb) as [Hr Ho].
      unfold bind. rewrite Ho. simpl. rewrite Hr. apply prefix_nil.
  - unfold bind. rewrite (stats_body_unmatched f w He). simpl. apply IH.
Qed.

Lemma stats_process_runs_all (files : list string) (w : world) :
  (∀ cmd w', binaries (generator cmd w').1 = binaries w') →
  GenerateAllStats.GENERATOR_BINARY ∈ binaries w →
  runs (trace (stats_process files w))
  = map cmd_of (omap metas_file_epoch files).
Proof.
  intros Hgen. revert w. induction files as [|f files IH]; intros w Hb; [done|].
  unfold GenerateAllStats.process in *. rewrite for_each_cons. simpl.
  destruct (metas_file_epoch f) as [e|] eqn:He.
  - unfold bind. rewrite (stats_body_runs f e w He Hb). simpl.
    f_equal. apply IH. by rewrite Hgen.
  - unfold bind. rewrite (stats_body_unmatched f w He). simpl. by apply IH.
Qed.

End Stats.

(** C6: with the live epoch [L] read once at the start, and a generator
    binary that stays in place, the batch starts the stats generator once
    per matching metas file, in the order of the sorted listing, with the
    command line of [stats_cmd]: the seven arguments of every epoch,
    followed by [--use-live-price-fallback] when the epoch is [L - 1] and by
    nothing otherwise. *)
Theorem live_price_fallback_iff_previous_epoch
  (generator : list string → world → world * Z)
  (metas_dir release_dir : string) (w : world) (L : Z) :
  epoch_info w = Some L →
  (∀ cmd w', binaries (generator cmd w').1 = binaries w') →
  GenerateAllStats.GENERATOR_BINARY ∈ binaries w →
  runs (trace (GenerateAllStats.main generator metas_dir release_dir w))
  = map (GenerateAllStats.stats_cmd metas_dir release_dir L)
        (omap metas_file_epoch (sort (elements (output_dir w))))
  ∧ ∀ e,
      take 7 (GenerateAllStats.stats_cmd metas_dir release_dir L e)
      = [GenerateAllStats.bin_path release_dir; "--metas-dir"; metas_dir;
         "--out-path"; path_join metas_dir ("stats_" +:+ str e +:+ ".json");
         "--epoch"; str e]
      ∧ drop 7 (GenerateAllStats.stats_cmd metas_dir release_dir L e)
        = if decide (e = L - 1) then [GenerateAllStats.live_price_flag]
          else [].
Proof.
  intros HL Hgen Hbin. split.
  - unfold GenerateAllStats.main. unfold bind at 1. simpl.
    unfold bind, get. simpl. rewrite HL.
    rewrite <- (stats_process_runs_all generator metas_dir release_dir L _ w)
      by done.
    by destruct (GenerateAllStats.process _ _ _ _ _ w) as [? ? [[]| |]].
  - intros e. unfold GenerateAllStats.stats_cmd.
    destruct (Z.eqb_spec e (L - 1)); case_decide; done.
Qed.

Lemma live_price_fallback_iff_previous_epoch_witness :
  runs (trace (GenerateAllStats.main (Examples.exits_with 0)
          "/repo/output" "/repo/target/release" Examples.w0))
  = map (GenerateAllStats.stats_cmd "/repo/output" "/repo/target/release" 518)
        (omap metas_file_epoch (sort (elements (output_dir Examples.w0)))).
Proof.
  refine (proj1 (live_price_fallback_iff_previous_epoch
                   (Examples.exits_with 0) "/repo/output"
                   "/repo/target/release" Examples.w0 518 eq_refl
                   (λ _ _, eq_refl) _)).
  by vm_compute.
Defined.

(** ** [prepare_epoch.py]: the snapshot locator *)

Import PrepareEpoch.

(** The loop with its [break] returns the first tagged snapshot; without
    one it leaves the initial selection. *)
Lemma preferred_loop_find (snapshots : list blob) (sel : blob * bool) :
  preferred_loop snapshots sel
  = match List.find has_tag snapshots with
    | Some s => (s, true)
    | None => sel
    end.
Proof.
  induction snapshots as [|s snapshots IH]; simpl; [done|].
  by destruct (has_tag s).
Qed.

Lemma find_jito_snapshot_nonempty
  (blobs : list blob) (target_epoch target_slot : Z) (first : blob)
  (others : list blob) :
  size_filter (find_blob_in_bucket blobs
                 (snapshot_regex target_epoch target_slot)) = first :: others →
  out (find_jito_snapshot blobs target_epoch target_slot tt)
  = Normal
      (let chosen := default first (List.find has_tag (first :: others)) in
       (last_segment "/" (name chosen), media_link chosen)).
Proof.
  intros Hkept. unfold find_jito_snapshot. rewrite Hkept.
  rewrite preferred_loop_find. unfold bind, emit, ret. simpl.
  destruct (has_tag first); [done|].
  by destruct (List.find has_tag others).
Qed.

(** C4: when candidates remain after the size filter, the locator returns
    the bare file name and the link of the first of them, in listing order,
    whose name contains the preferred-warehouse tag, and of the first of
    them when none does. For the three candidates of the example (5 GB,
    11 GB elsewhere, 12 GB in the preferred warehouse) it returns the 12 GB
    one in each of the six listing orders. *)
Theorem locator_selects_first_preferred_else_first
  (blobs : list blob) (target_epoch target_slot : Z) (first : blob)
  (others : list blob) :
  size_filter (find_blob_in_bucket blobs
                 (snapshot_regex target_epoch target_slot)) = first :: others →
  out (find_jito_snapshot blobs target_epoch target_slot tt)
  = Normal
      (let chosen := default first (List.find has_tag (first :: others)) in
       (last_segment "/" (name chosen), media_link chosen))
  ∧ Forall (λ listing,
      out (find_jito_snapshot listing 600 259631999 tt)
      = Normal ("snapshot-259631999-CCC.tar.zst", "https://storage/preferred"))
      (permutations [Examples.small; Examples.other; Examples.preferred]).
Proof.
  intros Hkept. split; [by apply find_jito_snapshot_nonempty|].
  apply Forall_forall. intros listing Hin. vm_compute in Hin.
  repeat (apply elem_of_cons in Hin as [->|Hin]; [by vm_compute|]).
  by apply not_elem_of_nil in Hin.
Qed.

Lemma locator_selects_first_preferred_else_first_witness :
  out (find_jito_snapshot
         [Examples.small; Examples.other; Examples.preferred] 600 259631999 tt)
  = Normal
      (let chosen :=
         default Examples.other
           (List.find has_tag [Examples.other; Examples.preferred]) in
       (last_segment "/" (name chosen), media_link chosen)).
Proof.
  refine (proj1 (locator_selects_first_preferred_else_first
                   [Examples.small; Examples.other; Examples.preferred]
                   600 259631999 Examples.other [Examples.preferred] _)).
  by vm_compute.
Defined.

(** Two candidates outside the preferred warehouse: the first listed wins,
    whichever it is. *)
Example locator_falls_back_to_listing_order :
  out (find_jito_snapshot [Examples.small; Examples.other] 600 259631999 tt)
  = Normal ("snapshot-259631999-BBB.tar.zst", "https://storage/other").
Proof. by vm_compute. Qed.

Lemma bool_filter_sublist {A} (f : A → bool) (l : list A) :
  List.filter f l `sublist_of` l.
Proof.
  induction l as [|x l IH]; simpl; [constructor|].
  destruct (f x); by constructor.
Qed.

(** C5 as stated fails at the floor itself: a matching candidate of exactly
    10,000,000,000 bytes is found by the listing, dropped by the size
    filter, and the locator exits with status 1. *)
Lemma ten_gb_candidate_is_dropped :
  size Examples.exactly_10GB = 10000000000
  ∧ find_blob_in_bucket [Examples.exactly_10GB] (snapshot_regex 600 259631999)
    = [Examples.exactly_10GB]
  ∧ size_filter [Examples.exactly_10GB] = []
  ∧ find_jito_snapshot [Examples.exactly_10GB] 600 259631999 tt
    = Result [Print "No snapshot found for epoch 600 at slot 259631999"] tt
        (SysExit 1).
Proof. split_and!; by vm_compute. Qed.

(** C5, as the code has it: the filter keeps exactly the found candidates
    whose size is above 10,000,000,000 bytes, in listing order, and the
    locator exits with status 1, after printing that no snapshot was found,
    exactly when none is kept. *)
Theorem size_floor_is_strict
  (blobs : list blob) (target_epoch target_slot : Z) (b : blob) :
  let found :=
    find_blob_in_bucket blobs (snapshot_regex target_epoch target_slot) in
  (b ∈ size_filter found ↔ b ∈ found ∧ 10000000000 < size b)
  ∧ size_filter found `sublist_of` found
  ∧ (size_filter found = [] ↔
     find_jito_snapshot blobs target_epoch target_slot tt
     = Result [Print ("No snapshot found for epoch " +:+ str target_epoch
                      +:+ " at slot " +:+ str target_slot)] tt (SysExit 1))
  ∧ (size_filter found = [] ↔
     ∀ v, out (find_jito_snapshot blobs target_epoch target_slot tt)
          ≠ Normal v).
Proof.
  intros found. split_and!.
  - unfold size_filter. rewrite list_elem_of_In, filter_In, <- list_elem_of_In.
    by rewrite Z.ltb_lt.
  - apply bool_filter_sublist.
  - unfold find_jito_snapshot. fold found.
    destruct (size_filter found) as [|first others] eqn:Hk; [done|].
    split; [done|]. unfold bind, emit, ret. simpl. discriminate.
  - destruct (size_filter found) as [|first others] eqn:Hk.
    + split; [|done]. intros _ v. unfold find_jito_snapshot. fold found.
      rewrite Hk. discriminate.
    + split; [done|]. intros Hno. exfalso.
      eapply Hno. by apply find_jito_snapshot_nonempty.
Qed.

(** * Further properties of the scripts *)

(** ** [upload_stats.py]: order and extent of the uploads *)

Lemma loop_trace_app (stats_dir : string) (l1 l2 : list string) :
  loop_trace stats_dir (l1 ++ l2)
  = (loop_trace stats_dir l1 ++ loop_trace stats_dir l2)%list.
Proof.
  induction l1 as [|f l1 IH]; cbn [loop_trace app]; [done|].
  destruct (parse_epoch f); rewrite IH; [|done].
  by rewrite app_assoc.
Qed.

Lemma loop_trace_events (stats_dir : string) (files : list string) (ev : event) :
  ev ∈ loop_trace stats_dir files →
  ∃ f, f ∈ files ∧ is_Some (parse_epoch f) ∧ ev ∈ upload_events stats_dir f.
Proof.
  induction files as [|f files IH]; cbn [loop_trace];
    [by intros ?%not_elem_of_nil|].
  destruct (parse_epoch f) as [e|] eqn:He.
  - intros [Hin|Hin]%elem_of_app.
    + exists f. split; [by left|]. split; [by rewrite He|done].
    + destruct (IH Hin) as (f' & ? & ? & ?). exists f'. split; [by right|done].
  - intros Hin. destruct (IH Hin) as (f' & ? & ? & ?).
    exists f'. split; [by right|done].
Qed.

(** The manifest is uploaded after every stats file: what precedes its
    upload contains no other upload from a string, and what follows it is
    made of ACL calls only; the text uploaded is that of the manifest built
    from the whole listing. *)
Theorem manifest_uploaded_after_all_stats
  (stats_dir : string) (listing : list string) :
  ∃ before after : list event,
    trace (main stats_dir listing)
    = (before
       ++ UploadFromString manifest_blob_name
            (json_dumps (built_manifest stats_dir listing)) :: after)%list
    ∧ Forall (λ ev, ∀ b p, ev ≠ UploadFromFilename b p) after
    ∧ Forall (λ ev, ∀ b d, ev ≠ UploadFromString b d) before.
Proof.
  rewrite main_unfold, (built_manifest_eq stats_dir). simpl.
  eexists (loop_trace stats_dir (sort listing) ++ [_])%list, _.
  split; [by rewrite <- app_assoc|]. split.
  - destruct (UploadStats.blob _); repeat constructor; discriminate.
  - apply Forall_app. split; [|repeat constructor; discriminate].
    apply Forall_forall. intros ev (f & _ & _ & Hev)%loop_trace_events b d ->.
    unfold upload_events in Hev.
    repeat (apply elem_of_cons in Hev as [Hev|Hev]; [discriminate|]).
    by apply not_elem_of_nil in Hev.
Qed.

(** Every listed file whose name matches is uploaded from its path in the
    output directory to [stake_pool_data/<name>] and made public right
    after. *)
Theorem matching_stats_file_uploaded_and_public
  (stats_dir : string) (listing : list string) (f : string) (e : Z) :
  f ∈ listing → parse_epoch f = Some e →
  UploadFromFilename (blob_name_of f) (path_join stats_dir f)
    ∈ trace (main stats_dir listing)
  ∧ public_read (trace (main stats_dir listing)) (blob_name_of f).
Proof.
  intros Hin He. rewrite main_unfold. simpl.
  rewrite <- (sort_Permutation listing) in Hin.
  apply list_elem_of_split in Hin as (l1 & l2 & ->).
  rewrite loop_trace_app. cbn [loop_trace]. rewrite He.
  unfold upload_events. split.
  - apply elem_of_app. left. apply elem_of_app. right. right. by left.
  - eexists (loop_trace stats_dir l1 ++ [_; _])%list, [], _.
    rewrite <- !app_assoc. reflexivity.
Qed.

Lemma matching_stats_file_uploaded_and_public_witness :
  public_read (trace (main "/repo/output" ["notes.txt"; "stats_516.json"]))
    "stake_pool_data/stats_516.json".
Proof.
  refine (proj2 (matching_stats_file_uploaded_and_public "/repo/output"
                   ["notes.txt"; "stats_516.json"] "stats_516.json" 516 _ _)).
  - apply elem_of_cons. right. by left.
  - by vm_compute.
Defined.

(** Nothing else is uploaded from a file: an upload from a file is that of
    a listed file whose name matches, to [stake_pool_data/<name>]. *)
Theorem only_matching_stats_files_uploaded
  (stats_dir : string) (listing : list string) (b p : string) :
  UploadFromFilename b p ∈ trace (main stats_dir listing) →
  ∃ f, f ∈ listing ∧ is_Some (parse_epoch f)
       ∧ b = blob_name_of f ∧ p = path_join stats_dir f.
Proof.
  rewrite main_unfold. simpl. intros [Hin|Hin]%elem_of_app.
  - apply loop_trace_events in Hin as (f & Hf & Hm & Hev).
    exists f. split; [by rewrite <- (sort_Permutation listing)|].
    split; [done|]. unfold upload_events in Hev.
    apply elem_of_cons in Hev as [Hev|Hev]; [discriminate|].
    apply elem_of_cons in Hev as [Hev|Hev]; [by simplify_eq|].
    repeat (apply elem_of_cons in Hev as [Hev|Hev]; [discriminate|]).
    by apply not_elem_of_nil in Hev.
  - do 2 (apply elem_of_cons in Hin as [Hin|Hin]; [discriminate|]).
    destruct (UploadStats.blob _); [|by apply not_elem_of_nil in Hin].
    repeat (apply elem_of_cons in Hin as [Hin|Hin]; [discriminate|]).
    by apply not_elem_of_nil in Hin.
Qed.

Lemma only_matching_stats_files_uploaded_witness :
  ∃ f, f ∈ ["notes.txt"; "stats_516.json"] ∧ is_Some (parse_epoch f)
       ∧ "stake_pool_data/stats_516.json" = blob_name_of f
       ∧ "/repo/output/stats_516.json" = path_join "/repo/output" f.
Proof.
  refine (only_matching_stats_files_uploaded "/repo/output"
            ["notes.txt"; "stats_516.json"] _ _ _).
  vm_compute. apply elem_of_cons. right. by left.
Defined.

Lemma loop_locals_blob_kept (files : list string) (l : locals) :
  is_Some (UploadStats.blob l) →
  is_Some (UploadStats.blob (loop_locals files l)).
Proof.
  revert l. induction files as [|f files IH]; intros l Hl; simpl; [done|].
  destruct (parse_epoch f); apply IH; [by eexists|done].
Qed.

Lemma loop_locals_blob_bound (files : list string) (l : locals) (f : string) :
  f ∈ files → is_Some (parse_epoch f) →
  is_Some (UploadStats.blob (loop_locals files l)).
Proof.
  revert l. induction files as [|g files IH]; intros l Hin Hf;
    [by apply not_elem_of_nil in Hin|].
  simpl. apply elem_of_cons in Hin as [->|Hin].
  - destruct Hf as [e ->]. apply loop_locals_blob_kept. by eexists.
  - destruct (parse_epoch g); by apply IH.
Qed.

(** The run ends normally exactly when some listed name matches; when none
    does it ends on the unbound [blob], whatever else the directory holds. *)
Theorem upload_ends_normally_iff_some_stats_file
  (stats_dir : string) (listing : list string) :
  (out (main stats_dir listing) = Normal tt
   ↔ ∃ f, f ∈ listing ∧ is_Some (parse_epoch f))
  ∧ (out (main stats_dir listing) = Raised (UnboundLocalError "blob")
     ↔ ∀ f, f ∈ listing → parse_epoch f = None).
Proof.
  rewrite main_unfold. simpl.
  destruct (UploadStats.blob _) as [b|] eqn:Hb.
  - apply loop_locals_blob in Hb as [Hb|(f & Hf & Hm & _)];
      [simpl in Hb; discriminate|].
    rewrite (sort_Permutation listing) in Hf. split.
    + split; [|done]. intros _. by exists f.
    + split; [discriminate|]. intros Hnone. destruct Hm as [e He].
      rewrite (Hnone f Hf) in He. discriminate.
  - assert (Hnone : ∀ f, f ∈ listing → parse_epoch f = None).
    { intros f Hf. destruct (parse_epoch f) as [e|] eqn:He; [|done].
      rewrite <- (sort_Permutation listing) in Hf.
      destruct (loop_locals_blob_bound (sort listing)
                  (Locals (Manifest None []) None) f Hf) as [b Hb'];
        [by rewrite He|].
      rewrite Hb in Hb'. discriminate. }
    split.
    + split; [discriminate|]. intros (f & Hf & [e He]).
      rewrite (Hnone f Hf) in He. discriminate.
    + split; [by intros _|done].
Qed.

(** The manifest lists one epoch per matching file, in the order of the
    sorted file names: neither sorted as numbers nor free of repetitions. *)
Theorem manifest_epochs_follow_sorted_names
  (stats_dir : string) (listing : list string) :
  epochs (built_manifest stats_dir listing) = parsed_epochs (sort listing)
  ∧ List.length (epochs (built_manifest stats_dir listing))
    = List.length
        (List.filter (λ f, bool_decide (is_Some (parse_epoch f))) listing).
Proof.
  assert (He : epochs (built_manifest stats_dir listing)
               = parsed_epochs (sort listing)).
  { rewrite built_manifest_eq. by rewrite loop_locals_epochs. }
  split; [done|]. rewrite He.
  rewrite (Permutation_length (parsed_epochs_sort listing)).
  clear He. unfold parsed_epochs.
  induction listing as [|f l IH]; simpl; [done|].
  destruct (parse_epoch f); simpl; by rewrite <- IH.
Qed.

(** ** [prepare_epoch.py]: what the locator returns *)

Lemma chosen_among_kept (first : blob) (others : list blob) :
  let chosen := default first (List.find has_tag (first :: others)) in
  chosen ∈ first :: others
  ∧ (has_tag chosen = true ∨ Forall (λ b, has_tag b = false) (first :: others)).
Proof.
  cbv zeta.
  destruct (List.find has_tag (first :: others)) as [c|] eqn:Hf; cbn [default].
  - apply find_some in Hf as [Hin Htag].
    split; [by apply list_elem_of_In|by left].
  - split; [by left|]. right. apply Forall_forall. intros b Hb.
    apply (find_none _ _ Hf). by apply list_elem_of_In.
Qed.

Lemma find_jito_snapshot_cases
  (blobs : list blob) (target_epoch target_slot : Z) :
  let kept := size_filter (find_blob_in_bucket blobs
                             (snapshot_regex target_epoch target_slot)) in
  match kept with
  | [] => find_jito_snapshot blobs target_epoch target_slot tt
          = Result [Print ("No snapshot found for epoch " +:+ str target_epoch
                           +:+ " at slot " +:+ str target_slot)] tt (SysExit 1)
  | first :: others =>
      let chosen := default first (List.find has_tag kept) in
      find_jito_snapshot blobs target_epoch target_slot tt
      = Result [Print ("Selected snapshot: " +:+ last_segment "/" (name chosen)
                       +:+ " (preferred: " +:+ bool_str (has_tag chosen)
                       +:+ ")")] tt
          (Normal (last_segment "/" (name chosen), media_link chosen))
  end.
Proof.
  intros kept. unfold find_jito_snapshot. fold kept.
  destruct kept as [|first others] eqn:Hk; [done|].
  rewrite preferred_loop_find. unfold bind, emit, ret.
  cbn [List.find]. destruct (has_tag first) eqn:Hfirst; cbn.
  - by rewrite Hfirst.
  - destruct (List.find has_tag others) as [c|] eqn:Hf; cbn.
    + apply find_some in Hf as [_ ->]. done.
    + by rewrite Hfirst.
Qed.

Lemma kept_sound
  (blobs : list blob) (r : regex) (b : blob) :
  b ∈ size_filter (find_blob_in_bucket blobs r) →
  b ∈ blobs ∧ 10000000000 < size b ∧ is_Some (re_search r (name b)).
Proof.
  unfold size_filter, find_blob_in_bucket.
  rewrite list_elem_of_In, !filter_In, <- list_elem_of_In.
  intros [[Hin Hm] Hs]. split; [done|]. split; [by apply Z.ltb_lt|].
  by apply bool_decide_eq_true in Hm.
Qed.

(** What the locator returns is the bare name and the link of one blob of
    the listing, whose name matches the epoch and slot pattern and whose
    size is above 10,000,000,000 bytes. *)
Theorem locator_returns_a_listed_full_snapshot
  (blobs : list blob) (target_epoch target_slot : Z)
  (snapshot_name snapshot_url : string) :
  out (find_jito_snapshot blobs target_epoch target_slot tt)
  = Normal (snapshot_name, snapshot_url) →
  ∃ b, b ∈ blobs
       ∧ snapshot_name = last_segment "/" (name b)
       ∧ snapshot_url = media_link b
       ∧ 10000000000 < size b
       ∧ is_Some (re_search (snapshot_regex target_epoch target_slot) (name b)).
Proof.
  pose proof (find_jito_snapshot_cases blobs target_epoch target_slot) as Hc.
  cbv zeta in Hc.
  destruct (size_filter _) as [|first others] eqn:Hk; rewrite Hc; [done|].
  cbn [out]. intros Heq.
  destruct (chosen_among_kept first others) as [Hin _].
  set (chosen := default first (List.find has_tag (first :: others))) in *.
  injection Heq as <- <-.
  rewrite <- Hk in Hin. apply kept_sound in Hin as (? & ? & ?).
  by exists chosen.
Qed.

Lemma locator_returns_a_listed_full_snapshot_witness :
  ∃ b, b ∈ [Examples.small; Examples.other]
       ∧ "snapshot-259631999-BBB.tar.zst" = last_segment "/" (name b)
       ∧ "https://storage/other" = media_link b
       ∧ 10000000000 < size b
       ∧ is_Some (re_search (snapshot_regex 600 259631999) (name b)).
Proof.
  refine (locator_returns_a_listed_full_snapshot
            [Examples.small; Examples.other] 600 259631999 _ _ _).
  by vm_compute.
Defined.

(** The preferred warehouse always wins: when some candidate that passes
    the pattern and the size filter carries the tag, the locator returns a
    tagged one, wherever it stands in the listing, and prints
    [preferred: True]. *)
Theorem locator_prefers_tagged_in_any_order
  (blobs : list blob) (target_epoch target_slot : Z) (b : blob) :
  b ∈ blobs →
  is_Some (re_search (snapshot_regex target_epoch target_slot) (name b)) →
  10000000000 < size b →
  has_tag b = true →
  ∃ c, c ∈ blobs ∧ has_tag c = true
       ∧ find_jito_snapshot blobs target_epoch target_slot tt
         = Result [Print ("Selected snapshot: " +:+ last_segment "/" (name c)
                          +:+ " (preferred: True)")] tt
             (Normal (last_segment "/" (name c), media_link c)).
Proof.
  intros Hin Hm Hs Htag.
  assert (Hk : b ∈ size_filter (find_blob_in_bucket blobs
                                  (snapshot_regex target_epoch target_slot))).
  { unfold size_filter, find_blob_in_bucket.
    rewrite list_elem_of_In, !filter_In, <- list_elem_of_In.
    split; [split; [done|by apply bool_decide_eq_true]|by apply Z.ltb_lt]. }
  pose proof (find_jito_snapshot_cases blobs target_epoch target_slot) as Hc.
  cbv zeta in Hc.
  destruct (size_filter _) as [|first others] eqn:Hkept;
    [by apply not_elem_of_nil in Hk|].
  destruct (chosen_among_kept first others) as [Hc_in [Hc_tag|Hnone]].
  - set (chosen := default first (List.find has_tag (first :: others))) in *.
    exists chosen. split; [|split; [exact Hc_tag|]].
    + rewrite <- Hkept in Hc_in. by apply kept_sound in Hc_in as (? & _).
    + rewrite Hc. by rewrite Hc_tag.
  - rewrite Forall_forall in Hnone. rewrite (Hnone b Hk) in Htag. discriminate.
Qed.

Lemma locator_prefers_tagged_in_any_order_witness :
  ∃ c, c ∈ [Examples.other; Examples.preferred] ∧ has_tag c = true
       ∧ find_jito_snapshot [Examples.other; Examples.preferred]
           600 259631999 tt
         = Result [Print ("Selected snapshot: " +:+ last_segment "/" (name c)
                          +:+ " (preferred: True)")] tt
             (Normal (last_segment "/" (name c), media_link c)).
Proof.
  refine (locator_prefers_tagged_in_any_order
            [Examples.other; Examples.preferred] 600 259631999
            Examples.preferred _ _ _ _).
  - apply elem_of_cons. right. by left.
  - vm_compute. by eexists.
  - by vm_compute.
  - by vm_compute.
Defined.

Lemma append_cons (c : ascii) (p s : string) :
  String c p +:+ s = String c (p +:+ s).
Proof. reflexivity. Qed.

Lemma str_in_cons_ne (sep c : ascii) (s : string) :
  Ascii.eqb c sep = false →
  str_in (String sep EmptyString) (String c s) = str_in (String sep EmptyString) s.
Proof.
  intros Hne. cbn [str_in strip_prefix].
  rewrite Ascii.eqb_sym, Hne. by destruct s.
Qed.

(** [s.split(sep)[-1]]: the text after the last separator. *)
Lemma last_segment_spec (sep : ascii) (s : string) :
  str_in (String sep EmptyString) (last_segment sep s) = false
  ∧ ∃ p, s = p +:+ last_segment sep s
         ∧ (p = EmptyString ∨ ∃ q, p = q +:+ String sep EmptyString).
Proof.
  induction s as [|c s [IHno (p & IHs & IHp)]]; cbn [last_segment].
  - split; [done|]. exists EmptyString. split; [done|by left].
  - destruct (Ascii.eqb c sep) eqn:Hc.
    + apply Ascii.eqb_eq in Hc as ->. split; [done|].
      exists (String sep p). split; [rewrite append_cons; by f_equal|].
      right. destruct IHp as [->|[q ->]]; [by exists EmptyString|].
      by exists (String sep q).
    + destruct (str_in (String sep EmptyString) s) eqn:Hin.
      * split; [done|].
        exists (String c p). split; [rewrite append_cons; by f_equal|].
        right. destruct IHp as [->|[q ->]]; [|by exists (String c q)].
        change (s = last_segment sep s) in IHs.
        rewrite <- IHs, Hin in IHno. discriminate.
      * split; [by rewrite str_in_cons_ne|].
        exists EmptyString. split; [done|by left].
Qed.

(** The name the locator returns is the part of the blob's name after its
    last slash: a bare file name, without any slash. *)
Theorem locator_name_is_bare_file_name
  (blobs : list blob) (target_epoch target_slot : Z)
  (snapshot_name snapshot_url : string) :
  out (find_jito_snapshot blobs target_epoch target_slot tt)
  = Normal (snapshot_name, snapshot_url) →
  str_in "/" snapshot_name = false
  ∧ ∃ b p, b ∈ blobs ∧ name b = p +:+ snapshot_name
           ∧ (p = EmptyString ∨ ∃ q, p = q +:+ "/").
Proof.
  pose proof (find_jito_snapshot_cases blobs target_epoch target_slot) as Hc.
  cbv zeta in Hc.
  destruct (size_filter _) as [|first others] eqn:Hk; rewrite Hc; [done|].
  cbn [out]. intros Heq.
  destruct (chosen_among_kept first others) as [Hin _].
  set (chosen := default first (List.find has_tag (first :: others))) in *.
  injection Heq as <- _.
  destruct (last_segment_spec "/" (name chosen)) as (Hno & p & Hp & Hq).
  split; [done|]. exists chosen, p. split; [|done].
  rewrite <- Hk in Hin. by apply kept_sound in Hin as (? & _).
Qed.

Lemma locator_name_is_bare_file_name_witness :
  str_in "/" "snapshot-259631999-BBB.tar.zst" = false.
Proof.
  refine (proj1 (locator_name_is_bare_file_name
                   [Examples.small; Examples.other] 600 259631999
                   "snapshot-259631999-BBB.tar.zst" "https://storage/other" _)).
  by vm_compute.
Defined.

Lemma re_search_after_prefix (r : regex) (p s : string) :
  is_Some (re_search r s) → is_Some (re_search r (p +:+ s)).
Proof.
  intros Hs. induction p as [|c p IH]; [done|].
  rewrite append_cons. cbn [re_search].
  by destruct (re_match r (String c (p +:+ s))).
Qed.

(** The pattern is searched for anywhere in a blob's name: a blob whose
    name ends with a matching name is found too, whatever comes before (the
    pattern of epoch 600 also finds names under [1600/]). *)
Theorem find_blob_matches_anywhere_in_name
  (blobs : list blob) (regex_pattern : regex) (b : blob) (p s : string) :
  b ∈ blobs → name b = p +:+ s → is_Some (re_search regex_pattern s) →
  b ∈ find_blob_in_bucket blobs regex_pattern.
Proof.
  intros Hin Hname Hs. unfold find_blob_in_bucket.
  rewrite list_elem_of_In, filter_In, <- list_elem_of_In. split; [done|].
  apply bool_decide_eq_true. rewrite Hname. by apply re_search_after_prefix.
Qed.

Lemma find_blob_matches_anywhere_in_name_witness :
  {| name := "1600/ny-mainnet-warehouse-1/snapshot-259631999-CCC.tar.zst";
     size := 12000000000; media_link := "https://storage/1600" |}
  ∈ find_blob_in_bucket
      [ {| name := "1600/ny-mainnet-warehouse-1/snapshot-259631999-CCC.tar.zst";
           size := 12000000000; media_link := "https://storage/1600" |} ]
      (snapshot_regex 600 259631999).
Proof.
  refine (find_blob_matches_anywhere_in_name _ _ _ "1"
            "600/ny-mainnet-warehouse-1/snapshot-259631999-CCC.tar.zst" _ _ _).
  - by left.
  - reflexivity.
  - vm_compute. by eexists.
Defined.

(** ** The purge: what it removes and what it leaves *)

Lemma data_dir_remove_child (d c d' : string) (w : world) :
  data_dir (remove_child d c w) !! d'
  = if decide (d = d')
    then (λ n, match n with Dir es => Dir (delete c es) | File => File end)
           <$> data_dir w !! d
    else data_dir w !! d'.
Proof.
  unfold remove_child. simpl. case_decide as Hd.
  - subst. by rewrite lookup_alter_eq.
  - by rewrite lookup_alter_ne.
Qed.

Lemma isdir_lookup (w : world) (d c : string) (es : gmap string kind) :
  data_dir w !! d = Some (Dir es) →
  isdir w d c = bool_decide (es !! c = Some KDir)
  ∧ isfile w d c = bool_decide (es !! c = Some KFile).
Proof.
  intros Hd. unfold isdir, isfile, child. rewrite Hd.
  destruct (es !! c) as [[]|]; by rewrite ?bool_decide_eq_true_2,
    ?bool_decide_eq_false_2 by done.
Qed.

Lemma isdir_not_a_directory (w : world) (d c : string) :
  (∀ es, data_dir w !! d ≠ Some (Dir es)) →
  isdir w d c = false ∧ isfile w d c = false.
Proof.
  intros Hd. unfold isdir, isfile, child.
  destruct (data_dir w !! d) as [[|es]|]; try done. by destruct (Hd es).
Qed.

Lemma without_derived_spec (w : world) (d : string) (es : gmap string kind) :
  data_dir w !! d = Some (Dir es) →
  without_derived es
  = (if isfile w d "genesis.bin" then delete "genesis.bin" else id)
      ((if isdir w d "stake-pools.accounts"
        then delete "stake-pools.accounts" else id)
         ((if isdir w d "rocksdb" then delete "rocksdb" else id) es)).
Proof.
  intros Hd.
  destruct (isdir_lookup w d "rocksdb" es Hd) as [-> _].
  destruct (isdir_lookup w d "stake-pools.accounts" es Hd) as [-> _].
  destruct (isdir_lookup w d "genesis.bin" es Hd) as [_ ->].
  unfold without_derived.
  repeat case_decide;
    rewrite ?bool_decide_eq_true_2, ?bool_decide_eq_false_2 by done; done.
Qed.

Lemma purge_frame (epoch_dir d : string) (w : world) :
  let r := delete_previous_artifacts epoch_dir d w in
  trace r = purge_calls epoch_dir d w
  ∧ out r = Normal tt
  ∧ data_dir (final r) !! d
    = (λ n, match n with Dir es => Dir (without_derived es) | File => File end)
        <$> data_dir w !! d
  ∧ (∀ d', d ≠ d' → data_dir (final r) !! d' = data_dir w !! d')
  ∧ output_dir (final r) = output_dir w
  ∧ binaries (final r) = binaries w
  ∧ epoch_schedule (final r) = epoch_schedule w
  ∧ epoch_info (final r) = epoch_info w.
Proof.
  assert (Hnd : (∀ es, data_dir w !! d ≠ Some (Dir es)) →
                isdir w d "rocksdb" = false
                ∧ isdir w d "stake-pools.accounts" = false
                ∧ isfile w d "genesis.bin" = false).
  { intros Hd. split_and!; by apply isdir_not_a_directory. }
  unfold delete_previous_artifacts, purge_calls, bind, get, put, emit, ret.
  simpl.
  destruct (isdir w d "rocksdb") eqn:E1; simpl;
    rewrite ?isdir_remove_child; simpl;
    destruct (isdir w d "stake-pools.accounts") eqn:E2; simpl;
    rewrite ?isfile_remove_child; simpl;
    destruct (isfile w d "genesis.bin") eqn:E3; simpl;
    (split; [done|]; split; [done|]; split;
     [|split_and!; try done; intros d' Hne;
       by rewrite ?lookup_alter_ne by done]);
    rewrite ?lookup_alter_eq;
    (destruct (data_dir w !! d) as [[|es]|] eqn:Hd;
     [ first [done | destruct Hnd as (? & ? & ?); [by rewrite Hd|congruence]]
     | cbn [fmap option_fmap option_map];
       rewrite (without_derived_spec w d es Hd), E1, E2, E3; done
     | first [done | destruct Hnd as (? & ? & ?); [by rewrite Hd|congruence]]
     ]).
Qed.

(** X10. The purge makes exactly the removals the starting state calls for
    and never fails; it leaves every other workspace, the output directory,
    the binaries and the chain as they are, and in the workspace itself every
    entry but the derived ones: the downloaded archives stay. *)
Theorem purge_removes_only_derived (epoch_dir d : string) (w : world) :
  let r := delete_previous_artifacts epoch_dir d w in
  trace r = purge_calls epoch_dir d w
  ∧ out r = Normal tt
  ∧ data_dir (final r) !! d
    = (λ n, match n with Dir es => Dir (without_derived es) | File => File end)
        <$> data_dir w !! d
  ∧ (∀ d', d ≠ d' → data_dir (final r) !! d' = data_dir w !! d')
  ∧ output_dir (final r) = output_dir w
  ∧ binaries (final r) = binaries w
  ∧ epoch_schedule (final r) = epoch_schedule w
  ∧ epoch_info (final r) = epoch_info w.
Proof. exact (purge_frame epoch_dir d w). Qed.

(** ** [generate_all_metas.py]: a supported epoch *)

Lemma bind_normal {S A B} (m : M S A) (k : A → M S B) (s : S) (a : A) :
  out (m s) = Normal a →
  bind m k s
  = Result (trace (m s) ++ trace (k a (final (m s))))
      (final (k a (final (m s)))) (out (k a (final (m s)))).
Proof. unfold bind. by intros ->. Qed.

Lemma makedirs_existing_directory
  (epoch_dir d : string) (es : gmap string kind) (w : world) :
  data_dir w !! d = Some (Dir es) →
  makedirs_exist_ok epoch_dir d w = Result [Makedirs epoch_dir] w (Normal tt).
Proof. intros Hd. unfold makedirs_exist_ok, bind, get. simpl. by rewrite Hd. Qed.

Lemma purge_keeps_entry (epoch_dir d : string) (w : world) :
  exists_dir_entry (final (delete_previous_artifacts epoch_dir d w)) d
  = exists_dir_entry w d.
Proof.
  destruct (purge_frame epoch_dir d w)
    as (_ & _ & Hdd & _).
  unfold exists_dir_entry. rewrite Hdd.
  destruct (data_dir w !! d); simpl;
    by rewrite ?bool_decide_eq_true_2, ?bool_decide_eq_false_2
      by (try by eexists; by intros [? ?]).
Qed.

Section MetasBody.
Variable generator : list string → world → world * Z.
Variables epochs_dir output_path release_dir : string.

Local Abbreviation metas_body :=
  (GenerateAllMetas.loop_body generator epochs_dir output_path release_dir).

(** The body up to the check of the binary, for a supported epoch whose
    directory exists. *)
Lemma metas_body_supported (d : string) (e : Z) (w : world) :
  dir_epoch d = Some e → 516 ≤ e → is_Some (data_dir w !! d) →
  let epoch_dir := path_join epochs_dir d in
  let wp := final (delete_previous_artifacts epoch_dir d w) in
  let rest : M world unit :=
    if negb (bool_decide (GenerateAllMetas.GENERATOR_BINARY ∈ binaries w))
    then emit (Print ("Error: binary " +:+ GenerateAllMetas.GENERATOR_BINARY
                      +:+ " not found. Have you built the crate?")) ;;;
         sys_exit 1
    else
      makedirs_exist_ok epoch_dir d ;;;
      w2 <- get ;;
      match epoch_schedule w2 with
      | None => raise RpcError
      | Some schedule =>
          emit (Print ("Processing epoch " +:+ str e +:+ " (slot: "
                       +:+ str (schedule e) +:+ ")...")) ;;;
          subprocess_run generator
            (GenerateAllMetas.metas_cmd output_path release_dir epoch_dir e
               (schedule e))
            [("RUST_LOG", "error")] ;;;
          emit (Print ("Done processing epoch " +:+ str e))
      end in
  metas_body d w
  = Result (purge_calls epoch_dir d w ++ trace (rest wp))
      (final (rest wp)) (out (rest wp)).
Proof.
  intros He Hge Hd epoch_dir wp rest.
  unfold dir_epoch in He. unfold GenerateAllMetas.loop_body.
  destruct (re_match GenerateAllMetas.epochs_dir_regex d) as [m|]; [|done].
  simpl in He. injection He as <-.
  destruct (Z.ltb_spec (group0_int m) 516) as [|_]; [lia|].
  destruct (purge_frame epoch_dir d w)
    as (Htr & Ho & _ & _ & _ & Hb & _).
  rewrite (bind_normal _ _ _ w) by done. cbn [get trace final out].
  assert (Hex : exists_dir_entry w d = true).
  { unfold exists_dir_entry. by apply bool_decide_eq_true_2. }
  rewrite Hex. cbn [negb].
  rewrite (bind_normal _ _ _ tt) by done.
  rewrite (bind_normal _ _ _ wp) by done.
  cbn [get trace final out app]. fold epoch_dir wp.
  fold wp in Hb. rewrite Hb, Htr. subst rest. cbn beta.
  by destruct (bool_decide
                 (GenerateAllMetas.GENERATOR_BINARY ∈ binaries w)).
Qed.

End MetasBody.

(** For a supported epoch whose workspace is a directory, with the binary
    built and the chain answering, the batch purges the workspace, then
    starts the generator on the purged workspace, with the ledger path of
    the workspace, the output file of the epoch and the last slot of the
    epoch, and goes on whatever the exit code. *)
Theorem supported_epoch_generated_on_purged_workspace
  (generator : list string → world → world * Z)
  (epochs_dir output_path release_dir d : string) (e : Z)
  (es : gmap string kind) (schedule : Z → Z) (w : world) :
  dir_epoch d = Some e → 516 ≤ e →
  data_dir w !! d = Some (Dir es) →
  GenerateAllMetas.GENERATOR_BINARY ∈ binaries w →
  epoch_schedule w = Some schedule →
  let epoch_dir := path_join epochs_dir d in
  let wp := final (delete_previous_artifacts epoch_dir d w) in
  let cmd := [path_join release_dir "generate-metas"; "--ledger-path";
              epoch_dir; "--out-path";
              path_join output_path
                ("stake_pool_metas_" +:+ str e +:+ ".json");
              "--snapshot-slot"; str (schedule e)] in
  GenerateAllMetas.loop_body generator epochs_dir output_path release_dir d w
  = Result
      (purge_calls epoch_dir d w
       ++ [Makedirs epoch_dir;
           Print ("Processing epoch " +:+ str e +:+ " (slot: "
                  +:+ str (schedule e) +:+ ")...");
           Run cmd [("RUST_LOG", "error")];
           Print ("Done processing epoch " +:+ str e)])
      (generator cmd wp).1 (Normal tt)
  ∧ data_dir wp !! d = Some (Dir (without_derived es))
  ∧ isdir wp d "rocksdb" = false
  ∧ isdir wp d "stake-pools.accounts" = false
  ∧ isfile wp d "genesis.bin" = false.
Proof.
  intros He Hge Hd Hbin Hs epoch_dir wp cmd.
  destruct (purge_frame epoch_dir d w)
    as (_ & _ & Hdd & _ & _ & _ & Hsch & _).
  destruct (purge_clears epoch_dir d w) as (_ & H1 & H2 & H3).
  fold wp in Hdd, Hsch, H1, H2, H3. rewrite Hd in Hdd. simpl in Hdd.
  split; [|done].
  rewrite (metas_body_supported generator epochs_dir output_path release_dir
             d e w He Hge) by (by rewrite Hd).
  fold epoch_dir wp. rewrite bool_decide_eq_true_2 by done. cbn [negb].
  rewrite (bind_normal _ _ _ tt)
    by (by rewrite (makedirs_existing_directory _ _ _ _ Hdd)).
  rewrite (makedirs_existing_directory _ _ _ _ Hdd). cbn [trace final out].
  unfold bind, get, emit, subprocess_run. simpl. rewrite Hsch, Hs. simpl.
  reflexivity.
Qed.

Lemma supported_epoch_generated_on_purged_workspace_witness :
  isdir (final (delete_previous_artifacts (path_join "/repo/data" "epoch_517")
                  "epoch_517" Examples.w0)) "epoch_517" "rocksdb" = false.
Proof.
  refine (proj1 (proj2 (proj2
    (supported_epoch_generated_on_purged_workspace (Examples.exits_with 1)
       "/repo/data" "/repo/output" "/repo/target/release" "epoch_517" 517
       Examples.prepared Examples.schedule Examples.w0 _ _ _ _ _)))).
  - by vm_compute.
  - lia.
  - by vm_compute.
  - by vm_compute.
  - reflexivity.
Defined.

(** ** [generate_all_metas.py]: no binary *)

Lemma runs_purge_calls (epoch_dir d : string) (w : world) :
  runs (purge_calls epoch_dir d w) = [].
Proof. unfold purge_calls. by repeat case_match. Qed.

(** A body that does not end normally ends the loop. *)
Lemma for_each_abort {S X} (x : X) (l : list X) (body : X → M S unit) (s : S) :
  (∀ u, out (body x s) ≠ Normal u) →
  for_each (x :: l) body s
  = Result (trace (body x s)) (final (body x s))
      match out (body x s) with
      | Normal u => Normal u | SysExit c => SysExit c | Raised e => Raised e
      end.
Proof.
  intros Hx. rewrite for_each_cons. unfold bind.
  destruct (out (body x s)) as [u| |]; [by destruct (Hx u)|done..].
Qed.

(** A directory the batch generates metas for: its name starts with
    [epoch_<n>] for a supported epoch [n]. *)
Local Abbreviation supported_dir :=
  (λ d : string, ∃ e, dir_epoch d = Some e ∧ 516 ≤ e).

Lemma metas_process_no_binary
  (generator : list string → world → world * Z)
  (epochs_dir output_path release_dir : string) (l : list string) (w : world) :
  GenerateAllMetas.GENERATOR_BINARY ∉ binaries w →
  Forall (λ d, is_Some (data_dir w !! d)) l →
  let r := GenerateAllMetas.process generator epochs_dir output_path
             release_dir l w in
  runs (trace r) = []
  ∧ ((out r = SysExit 1 ∧ Exists supported_dir l)
     ∨ (out r = Normal tt ∧ final r = w ∧ Forall (λ d, ¬ supported_dir d) l)).
Proof.
  intros Hb. unfold GenerateAllMetas.process.
  induction l as [|d l IH]; intros Hl; [by split; [|right]|].
  apply Forall_cons in Hl as [Hd Hl]. specialize (IH Hl).
  cbv zeta in IH |- *. destruct IH as [IHr IHo].
  destruct (dir_epoch d) as [e|] eqn:He.
  - destruct (Z.lt_ge_cases e 516) as [Hlt|Hge].
    + rewrite for_each_cons.
      rewrite (bind_normal _ _ _ tt)
        by (by rewrite (metas_body_unsupported _ _ _ _ d e w He Hlt)).
      rewrite (metas_body_unsupported _ _ _ _ d e w He Hlt).
      cbn [trace final out]. split; [by rewrite runs_app, IHr|].
      destruct IHo as [[Ho Hex]|(Ho & Hf & Hall)]; [left|right].
      * split; [done|]. by apply Exists_cons_tl.
      * split_and!; [done..|]. apply Forall_cons; split; [|done].
        intros (e' & He' & Hge'). rewrite He in He'. simplify_eq. lia.
    + pose proof (metas_body_supported generator epochs_dir output_path
                    release_dir d e w He Hge Hd) as Hbody.
      cbv zeta in Hbody. rewrite bool_decide_eq_false_2 in Hbody by done.
      cbn [negb] in Hbody. unfold bind at 1, emit, sys_exit in Hbody.
      cbn [trace final out app] in Hbody.
      rewrite for_each_abort by (by rewrite Hbody). rewrite Hbody.
      cbn [trace final out]. split.
      * by rewrite runs_app, runs_purge_calls.
      * left. split; [done|]. apply Exists_cons_hd. by exists e.
  - rewrite (for_each_skip d l _ w)
      by (by apply metas_body_unmatched).
    split; [done|].
    destruct IHo as [[Ho Hex]|(Ho & Hf & Hall)]; [left|right].
    + split; [done|]. by apply Exists_cons_tl.
    + split_and!; [done..|]. apply Forall_cons; split; [|done].
      intros (e' & He' & _). by rewrite He in He'.
Qed.

Lemma elem_of_sorted_listdir (w : world) (d : string) :
  d ∈ sort (listdir (data_dir w)) ↔ is_Some (data_dir w !! d).
Proof.
  rewrite sort_Permutation. unfold listdir.
  rewrite list_elem_of_fmap. split.
  - intros ([d' n] & -> & Hin). apply elem_of_map_to_list in Hin. by exists n.
  - intros [n Hn]. exists (d, n). split; [done|]. by apply elem_of_map_to_list.
Qed.

(** X12. With the generator binary not built, the batch starts no generator.
    It exits with status 1 when the data directory has an entry named for a
    supported epoch; with no such entry it ends normally and leaves the
    world as it found it, so the missing binary goes unnoticed. *)
Theorem metas_batch_without_binary
  (generator : list string → world → world * Z)
  (epochs_dir output_path release_dir : string) (w : world) :
  GenerateAllMetas.GENERATOR_BINARY ∉ binaries w →
  let r := GenerateAllMetas.main generator epochs_dir output_path
             release_dir w in
  let some_supported :=
    ∃ d e, is_Some (data_dir w !! d) ∧ dir_epoch d = Some e ∧ 516 ≤ e in
  runs (trace r) = []
  ∧ (some_supported → out r = SysExit 1)
  ∧ (¬ some_supported → out r = Normal tt ∧ final r = w).
Proof.
  intros Hb r some_supported.
  destruct (metas_process_no_binary generator epochs_dir output_path
              release_dir (sort (listdir (data_dir w))) w Hb) as [Hr Ho].
  { apply Forall_forall. intros d. by rewrite elem_of_sorted_listdir. }
  assert (Hmain : r = Result
            (Print "Generating stake pool metas for all epochs"
             :: trace (GenerateAllMetas.process generator epochs_dir
                         output_path release_dir
                         (sort (listdir (data_dir w))) w))
            (final (GenerateAllMetas.process generator epochs_dir
                      output_path release_dir
                      (sort (listdir (data_dir w))) w))
            (out (GenerateAllMetas.process generator epochs_dir
                    output_path release_dir
                    (sort (listdir (data_dir w))) w))).
  { subst r. unfold GenerateAllMetas.main.
    rewrite (bind_normal _ _ _ tt) by done.
    cbn [emit trace final out].
    rewrite (bind_normal _ _ _ w) by done. done. }
  rewrite Hmain. cbn [trace final out].
  split; [exact Hr|].
  destruct Ho as [[Ho Hex]|(Ho & Hf & Hall)].
  - split; [done|]. intros Hno. destruct Hno.
    apply Exists_exists in Hex as (d & Hin & e & He & Hge).
    exists d, e. by rewrite <-elem_of_sorted_listdir.
  - split; [|done]. intros (d & e & Hd & He & Hge).
    rewrite Forall_forall in Hall. destruct (Hall d).
    + by apply elem_of_sorted_listdir.
    + by exists e.
Qed.

Lemma metas_batch_without_binary_witness :
  out (GenerateAllMetas.main (Examples.exits_with 0) "/repo/data"
         "/repo/output" "/repo/target/release"
         (Examples.no_binaries Examples.w0)) = SysExit 1.
Proof.
  refine (proj1 (proj2
    (metas_batch_without_binary (Examples.exits_with 0) "/repo/data"
       "/repo/output" "/repo/target/release"
       (Examples.no_binaries Examples.w0) _)) _).
  - by vm_compute.
  - exists "epoch_517", 517. split_and!; [by vm_compute; eexists|by vm_compute|lia].
Defined.
